(** * docs-mcp-server: the two query handlers of [src/mcp_server.py]

  A shallow embedding of [search_documentation] and [get_code_examples]
  together with the process-wide [DOC_CACHE], followed by the properties
  of the handlers.

  Modelling conventions.
  - A Python [str] is the [string] of the bytes of its UTF-8 encoding (a
    lone surrogate encoded like any other code point).  Concatenation,
    equality and [in] on the [str]s are concatenation, equality and
    substring on the encodings.
  - [str.strip] is given in full: the characters it removes are the
    twenty-nine for which [str.isspace] holds, each by its encoding.
  - [str.lower] depends on the case tables of Unicode, which are not part of
    this repository: every definition that lowercases takes the function as
    its parameter [lower], and the properties hold for every such function.
    Where a property needs a fact about it, the fact is a hypothesis.  On
    concrete inputs, all of ASCII characters, the handlers are run with
    [PyStr.ascii_lower].
  - [Optional[int]] is [option Z]; [Optional[str]] is [option string].
  - [DOC_CACHE] (a [dict]) is a [gmap string DocumentationResult].
  - The two external collaborators, [aiohttp] and [BeautifulSoup], are not
    code of this repository.  A GET is answered by an oracle [net], indexed
    by the number of requests already sent, and every request is appended to
    a log kept in the state.  A response carries its status and the outcome
    of [await response.text()] followed by [BeautifulSoup(html, 'lxml')]:
    the parsed tree, or what one of the two raised.  Leaving the two
    [async with] blocks is taken to raise nothing.
  - What is raised is either an instance of [Exception], which the handlers
    catch, or another [BaseException] ([asyncio.CancelledError],
    [KeyboardInterrupt], [SystemExit]), which they let through: a call of a
    handler either returns a result or propagates the fault. *)

From Stdlib Require Import ZArith Ascii String List Bool Lia DecimalString.
From stdpp Require Import base option list strings gmap fin_maps.

Import ListNotations.
Local Open Scope string_scope.
Local Open Scope Z_scope.
Local Open Scope list_scope.

#[local] Set Warnings "-register-all".

(** ** Strings *)

Module PyStr.

(** [c.isupper()] on the ASCII range. *)
Definition is_upper (c : ascii) : bool :=
  let n := N_of_ascii c in (65 <=? n)%N && (n <=? 90)%N.

Definition lower_char (c : ascii) : ascii :=
  if is_upper c then ascii_of_N (N_of_ascii c + 32) else c.

(** [s.lower()] for a [str] of ASCII characters: the function the handlers
    are run with on concrete inputs. *)
Fixpoint ascii_lower (s : string) : string :=
  match s with
  | EmptyString => EmptyString
  | String c r => String (lower_char c) (ascii_lower r)
  end.

(** The string of the given bytes. *)
Definition bytes (l : list N) : string :=
  fold_right (fun n s => String (ascii_of_N n) s) EmptyString l.

(** The encodings of the characters [c] with [c.isspace()]: U+0009 to
    U+000D, U+001C to U+001F, the blank, U+0085, U+00A0, U+1680, U+2000 to
    U+200A, U+2028, U+2029, U+202F, U+205F and U+3000. *)
Definition whitespace : list string :=
  map bytes
    [ [9]; [10]; [11]; [12]; [13]; [28]; [29]; [30]; [31]; [32];
      [194; 133]; [194; 160]; [225; 154; 128];
      [226; 128; 128]; [226; 128; 129]; [226; 128; 130]; [226; 128; 131];
      [226; 128; 132]; [226; 128; 133]; [226; 128; 134]; [226; 128; 135];
      [226; 128; 136]; [226; 128; 137]; [226; 128; 138];
      [226; 128; 168]; [226; 128; 169]; [226; 128; 175];
      [226; 129; 159]; [227; 128; 128] ]%N.

(** [s] without its prefix [t], when it has this prefix. *)
Fixpoint drop_prefix (t s : string) : option string :=
  match t with
  | EmptyString => Some s
  | String a t' =>
      match s with
      | EmptyString => None
      | String b s' => if Ascii.eqb a b then drop_prefix t' s' else None
      end
  end.

(** [s] without its first character, when this is one of [chars]. *)
Definition drop_first (chars : list string) (s : string) : option string :=
  fold_right
    (fun t found => match drop_prefix t s with Some r => Some r | None => found end)
    None chars.

Fixpoint strip_front_upto (n : nat) (chars : list string) (s : string) : string :=
  match n with
  | O => s
  | S n' =>
      match drop_first chars s with
      | Some r => strip_front_upto n' chars r
      | None => s
      end
  end.

(** [s] without the characters of [chars] it starts with. *)
Definition strip_front (chars : list string) (s : string) : string :=
  strip_front_upto (String.length s) chars s.

Fixpoint rev (s : string) : string :=
  match s with
  | EmptyString => EmptyString
  | String c r => rev r +:+ String c EmptyString
  end.

(** [s.lstrip()] *)
Definition lstrip (s : string) : string := strip_front whitespace s.

(** [s.rstrip()]: the same from the other end. *)
Definition rstrip (s : string) : string :=
  rev (strip_front (map rev whitespace) (rev s)).

(** [s.strip()] *)
Definition strip (s : string) : string := rstrip (lstrip s).

(** [needle in hay] *)
Fixpoint contains (needle hay : string) : bool :=
  String.prefix needle hay
  || match hay with
     | EmptyString => false
     | String _ r => contains needle r
     end.

(** [str(n)] for an [int], as an f-string renders it. *)
Definition of_int (n : Z) : string := NilZero.string_of_int (Z.to_int n).

(** [template.format(arg)] for a template with replacement fields [{}]
    only: the first field is replaced by [arg]. *)
Fixpoint format (template arg : string) : string :=
  match template with
  | String "{" (String "}" r) => arg +:+ r
  | String c r => String c (format r arg)
  | EmptyString => EmptyString
  end.

(** [l[:stop]] *)
Definition slice_to {A} (stop : option Z) (l : list A) : list A :=
  match stop with
  | None => l
  | Some n =>
      if 0 <=? n then take (Z.to_nat n) l
      else take (length l - Z.to_nat (- n)) l
  end.

End PyStr.

(** ** The parsed document (BeautifulSoup) *)

Module Soup.

(** A [PageElement]: a string of the document or a tag with its name, its
    [class] values, its other attributes and its children. *)
Inductive PageElement : Type :=
| NavigableString (s : string)
| Tag (name : string) (classes : list string)
      (attrs : list (string * string)) (contents : list PageElement).

(** The [BeautifulSoup] object: the top-level elements of the document. *)
Definition BeautifulSoup : Type := list PageElement.

Definition is_tag (e : PageElement) : bool :=
  match e with Tag _ _ _ _ => true | NavigableString _ => false end.

(** [e.text]: all the strings below [e], concatenated in document order. *)
Fixpoint text (e : PageElement) : string :=
  match e with
  | NavigableString s => s
  | Tag _ _ _ cs => fold_right (fun c acc => text c +:+ acc) "" cs
  end.

(** [tag.get(key)] *)
Definition get (key : string) (e : PageElement) : option string :=
  match e with
  | NavigableString _ => None
  | Tag _ _ attrs _ =>
      snd <$> List.find (fun kv => String.eqb (fst kv) key) attrs
  end.

(** An element with its ancestors, nearest first. *)
Definition Located : Type := list PageElement * PageElement.

(** [e] and everything below it, in document order. *)
Fixpoint walk (parents : list PageElement) (e : PageElement) : list Located :=
  (parents, e)
  :: match e with
     | NavigableString _ => []
     | Tag _ _ _ cs => flat_map (walk (e :: parents)) cs
     end.

Definition descendants (parents : list PageElement) (e : PageElement)
  : list Located :=
  match e with
  | NavigableString _ => []
  | Tag _ _ _ cs => flat_map (walk (e :: parents)) cs
  end.

(** A compound selector: an optional type name and an optional class. *)
Record compound : Type :=
  { sel_name : option string; sel_class : option string }.

(** A selector: compounds joined by the descendant combinator. *)
Definition selector : Type := list compound.

Definition has_name (n : string) (e : PageElement) : bool :=
  match e with
  | Tag name _ _ _ => String.eqb name n
  | NavigableString _ => false
  end.

Definition has_class (c : string) (e : PageElement) : bool :=
  match e with
  | Tag _ classes _ _ => existsb (String.eqb c) classes
  | NavigableString _ => false
  end.

Definition matches_compound (c : compound) (e : PageElement) : bool :=
  is_tag e
  && match sel_name c with Some n => has_name n e | None => true end
  && match sel_class c with Some k => has_class k e | None => true end.

(** The compounds left of the subject, innermost first, are matched
    against the ancestors, nearest first. *)
Fixpoint match_ancestors (parents : list PageElement) (sel_rev : list compound)
  {struct parents} : bool :=
  match sel_rev with
  | [] => true
  | c :: rest =>
      match parents with
      | [] => false
      | p :: ps =>
          if matches_compound c p then match_ancestors ps rest
          else match_ancestors ps sel_rev
      end
  end.

Definition matches (sel : selector) (le : Located) : bool :=
  match rev sel with
  | [] => false
  | c :: rest => matches_compound c (snd le) && match_ancestors (fst le) rest
  end.

(** ['pre'], ['a'], ['.context'], ['.excerpt'], ['ul.search li'] and
    ['.result-list .result']. *)
Definition by_name (n : string) : compound :=
  {| sel_name := Some n; sel_class := None |}.
Definition by_class (k : string) : compound :=
  {| sel_name := None; sel_class := Some k |}.
Definition sel_pre : selector := [by_name "pre"].
Definition sel_a : selector := [by_name "a"].
Definition sel_context : selector := [by_class "context"].
Definition sel_excerpt : selector := [by_class "excerpt"].
Definition sel_ul_search_li : selector :=
  [{| sel_name := Some "ul"; sel_class := Some "search" |}; by_name "li"].
Definition sel_result_list_result : selector :=
  [by_class "result-list"; by_class "result"].

(** Each element of a list with the elements before it, nearest first. *)
Fixpoint with_previous {A} (seen : list A) (l : list A) : list (list A * A) :=
  match l with
  | [] => []
  | x :: r => (seen, x) :: with_previous (x :: seen) r
  end.

(** An element of the document as the handlers hold it: the element, its
    ancestors, and [previous_elements], everything parsed before it. *)
Record Element : Type :=
  { previous_elements : list Located; located : Located }.

Definition node (e : Element) : PageElement := snd (located e).

Definition elements (soup : BeautifulSoup) : list Element :=
  map (fun p => {| previous_elements := fst p; located := snd p |})
      (with_previous [] (flat_map (walk []) soup)).

(** [soup.select(sel)] *)
Definition select (sel : selector) (soup : BeautifulSoup) : list Element :=
  List.filter (fun e => matches sel (located e)) (elements soup).

(** [tag.select_one(sel)]: the first match below [tag]. *)
Definition select_one (sel : selector) (e : Element) : option PageElement :=
  snd <$> List.find (matches sel) (descendants (fst (located e)) (node e)).

(** [e.find_previous(names)]: the nearest element before [e] in document
    order that is a tag with one of the [names]. *)
Definition find_previous (names : list string) (e : Element)
  : option PageElement :=
  snd <$> List.find (fun le => existsb (fun n => has_name n (snd le)) names)
                    (previous_elements e).

End Soup.

(** ** The data model *)

(** A [Dict] of a result list: its items in insertion order. *)
Definition Dict : Type := list (string * string).

Module DocumentationQuery.
Record t : Type :=
  { library : string; term : string; max_results : option Z }.
(** The value a request body without [max_results] gets. *)
Definition default_max_results : option Z := Some 5.
End DocumentationQuery.

Module CodeExampleQuery.
Record t : Type :=
  { library : string; function : string;
    language : option string; max_examples : option Z }.
Definition default_language : option string := Some "python".
Definition default_max_examples : option Z := Some 3.
End CodeExampleQuery.

Module DocumentationResult.
Record t : Type :=
  { library : string; term : string; results : list Dict;
    error : option string }.
End DocumentationResult.

Module CodeExampleResult.
Record t : Type :=
  { library : string; function : string; examples : list Dict;
    error : option string }.
End CodeExampleResult.

(** [d.get(key)] on a table written as a literal. *)
Definition dict_get (d : list (string * string)) (key : string) : option string :=
  snd <$> List.find (fun kv => String.eqb (fst kv) key) d.

Definition DOC_SOURCES : list (string * string) :=
  [ ("python", "https://docs.python.org/3/");
    ("javascript", "https://developer.mozilla.org/en-US/docs/Web/JavaScript/");
    ("nodejs", "https://nodejs.org/api/");
    ("react", "https://reactjs.org/docs/");
    ("tensorflow", "https://www.tensorflow.org/api_docs/");
    ("pandas", "https://pandas.pydata.org/docs/");
    ("django", "https://docs.djangoproject.com/en/stable/");
    ("flask", "https://flask.palletsprojects.com/en/latest/");
    ("fastapi", "https://fastapi.tiangolo.com/");
    ("numpy", "https://numpy.org/doc/stable/");
    ("pytorch", "https://pytorch.org/docs/stable/") ].

Definition CODE_EXAMPLE_SOURCES : list (string * string) :=
  [ ("python",
     "https://docs.python.org/3/search.html?q={}&check_keywords=yes&area=default");
    ("javascript", "https://developer.mozilla.org/en-US/search?q={}");
    ("nodejs", "https://nodejs.org/api/all.html#all_{}") ].

(** ** The network and the state of the process *)

(** What a call raises: an instance of [Exception], or a [BaseException]
    that is not one ([asyncio.CancelledError] at an [await],
    [KeyboardInterrupt], [SystemExit]); each with its [str(e)]. *)
Inductive Raised : Type :=
| Exception (description : string)
| BaseException (description : string).

(** What [session.get(url)] gives: it raises, or there is a response with
    its status and, once read and parsed, its document (or what reading or
    parsing raised). *)
Inductive Reply : Type :=
| Raises (e : Raised)
| Response (status : Z) (body : Raised + Soup.BeautifulSoup).

(** The reply to the [n]-th request of the process, sent to [url]. *)
Definition Net : Type := nat -> string -> Reply.

Record State : Type :=
  { DOC_CACHE : gmap string DocumentationResult.t;
    requests : list string }.

Definition initial : State := {| DOC_CACHE := ∅; requests := [] |}.

(** [session.get(url)]: the request is logged and the oracle answers. *)
Definition session_get (net : Net) (url : string) (st : State) : Reply * State :=
  (net (length (requests st)) url,
   {| DOC_CACHE := DOC_CACHE st; requests := requests st ++ [url] |}).

(** [DOC_CACHE[key] = r] *)
Definition cache_store (key : string) (r : DocumentationResult.t) (st : State)
  : State :=
  {| DOC_CACHE := <[key := r]> (DOC_CACHE st); requests := requests st |}.

(** How a call of a handler ends: it returns its result, or a fault it
    does not catch goes on to its caller. *)
Inductive Outcome (R : Type) : Type :=
| Returns (r : R)
| Propagates (description : string).

Arguments Returns {R} r.
Arguments Propagates {R} description.

(** [try: body except Exception as e: return error_result(str(e))] *)
Definition except_Exception {R} (error_result : string -> R) (body : Raised + R)
  : Outcome R :=
  match body with
  | inr r => Returns r
  | inl (Exception e) => Returns (error_result e)
  | inl (BaseException e) => Propagates e
  end.

(** ** Extraction *)

(** How an f-string renders an [Optional[str]]. *)
Definition fmt_opt (o : option string) : string := default "None" o.

(** The text of [result.select_one(sel)], stripped, or [""] without a match. *)
Definition snippet (sel : Soup.selector) (result : Soup.Element) : string :=
  match Soup.select_one sel result with
  | Some e => PyStr.strip (Soup.text e)
  | None => ""
  end.

(** One turn of the loop over the search results of docs.python.org. *)
Definition python_record (result : Soup.Element) : option Dict :=
  match Soup.select_one Soup.sel_a result with
  | Some link =>
      let href := Soup.get "href" link in
      let title := PyStr.strip (Soup.text link) in
      let description := snippet Soup.sel_context result in
      Some [ ("title", title);
             ("url", "https://docs.python.org/3/" +:+ fmt_opt href);
             ("description", description) ]
  | None => None
  end.

(** One turn of the loop over the search results of developer.mozilla.org. *)
Definition javascript_record (result : Soup.Element) : option Dict :=
  match Soup.select_one Soup.sel_a result with
  | Some link =>
      let href := Soup.get "href" link in
      let title := PyStr.strip (Soup.text link) in
      let description := snippet Soup.sel_excerpt result in
      Some [ ("title", title);
             ("url", "https://developer.mozilla.org" +:+ fmt_opt href);
             ("description", description) ]
  | None => None
  end.

(** The parsing branches of [search_documentation]. *)
Definition doc_results (lower : string -> string) (library : string)
  (max_results : option Z) (soup : Soup.BeautifulSoup) : list Dict :=
  if String.eqb (lower library) "python" then
    let search_results := Soup.select Soup.sel_ul_search_li soup in
    omap python_record (PyStr.slice_to max_results search_results)
  else if String.eqb (lower library) "javascript" then
    let search_results := Soup.select Soup.sel_result_list_result soup in
    omap javascript_record (PyStr.slice_to max_results search_results)
  else [].

Definition headings : list string := ["h1"; "h2"; "h3"; "h4"; "h5"; "h6"].

(** One turn of the loop over the [pre] blocks. *)
Definition python_example (function : string) (code_block : Soup.Element)
  : option Dict :=
  if PyStr.contains function (Soup.text (Soup.node code_block)) then
    let heading := Soup.find_previous headings code_block in
    let heading_text :=
      match heading with
      | Some h => PyStr.strip (Soup.text h)
      | None => "Example"
      end in
    Some [ ("title", heading_text);
           ("code", PyStr.strip (Soup.text (Soup.node code_block)));
           ("language", "python") ]
  else None.

(** The parsing branch of [get_code_examples]. *)
Definition code_examples (language function : string) (max_examples : option Z)
  (soup : Soup.BeautifulSoup) : list Dict :=
  if String.eqb language "python" then
    let code_blocks := Soup.select Soup.sel_pre soup in
    omap (python_example function) (PyStr.slice_to max_examples code_blocks)
  else [].

(** ** The handlers *)

Definition cache_key (query : DocumentationQuery.t) : string :=
  DocumentationQuery.library query +:+ ":" +:+ DocumentationQuery.term query.

(** The URL [search_documentation] requests for a library with [base_url]. *)
Definition doc_search_url (lower : string -> string) (base_url : string)
  (query : DocumentationQuery.t) : string :=
  let lib := lower (DocumentationQuery.library query) in
  let term := DocumentationQuery.term query in
  if String.eqb lib "python" then
    "https://docs.python.org/3/search.html?q=" +:+ term
      +:+ "&check_keywords=yes&area=default"
  else if String.eqb lib "javascript" then
    "https://developer.mozilla.org/en-US/search?q=" +:+ term
  else base_url +:+ "search.html?q=" +:+ term.

Definition doc_result (query : DocumentationQuery.t) (results : list Dict)
  (error : option string) : DocumentationResult.t :=
  {| DocumentationResult.library := DocumentationQuery.library query;
     DocumentationResult.term := DocumentationQuery.term query;
     DocumentationResult.results := results;
     DocumentationResult.error := error |}.

(** The body of the [try] of [search_documentation]: [inl e] when it raises
    [e], [inr r] when it returns [r]. *)
Definition search_documentation_try (lower : string -> string) (net : Net)
  (query : DocumentationQuery.t) (st : State)
  : (Raised + DocumentationResult.t) * State :=
  let cache_key := cache_key query in
  match DOC_CACHE st !! cache_key with
  | Some cached => (inr cached, st)
  | None =>
      let unavailable :=
        doc_result query []
          (Some ("Documentation for " +:+ DocumentationQuery.library query
                   +:+ " is not available")) in
      match dict_get DOC_SOURCES (lower (DocumentationQuery.library query)) with
      | None => (inr unavailable, st)
      | Some base_url =>
          if String.eqb base_url "" then (inr unavailable, st)
          else
            let search_url := doc_search_url lower base_url query in
            let (reply, st) := session_get net search_url st in
            match reply with
            | Raises e => (inl e, st)
            | Response status body =>
                if negb (status =? 200) then
                  (inr (doc_result query []
                          (Some ("Failed to fetch documentation: "
                                   +:+ PyStr.of_int status))), st)
                else
                  match body with
                  | inl e => (inl e, st)
                  | inr soup =>
                      let results :=
                        doc_results lower (DocumentationQuery.library query)
                          (DocumentationQuery.max_results query) soup in
                      let result := doc_result query results None in
                      (inr result, cache_store cache_key result st)
                  end
            end
      end
  end.

(** [search_documentation]: the [except Exception] clause turns what the
    body raised into a result, when it is an [Exception]. *)
Definition search_documentation (lower : string -> string) (net : Net)
  (query : DocumentationQuery.t) (st : State)
  : Outcome DocumentationResult.t * State :=
  let (body, st') := search_documentation_try lower net query st in
  (except_Exception (fun e => doc_result query [] (Some e)) body, st').

Definition code_result (query : CodeExampleQuery.t) (examples : list Dict)
  (error : option string) : CodeExampleResult.t :=
  {| CodeExampleResult.library := CodeExampleQuery.library query;
     CodeExampleResult.function := CodeExampleQuery.function query;
     CodeExampleResult.examples := examples;
     CodeExampleResult.error := error |}.

(** What [None.lower()] raises: an [AttributeError] with this text. *)
Definition none_has_no_lower : string :=
  "'NoneType' object has no attribute 'lower'".

(** The body of the [try] of [get_code_examples]. *)
Definition get_code_examples_try (lower : string -> string) (net : Net)
  (query : CodeExampleQuery.t) (st : State)
  : (Raised + CodeExampleResult.t) * State :=
  match CodeExampleQuery.language query with
  | None => (inl (Exception none_has_no_lower), st)
  | Some l =>
      let language := lower l in
      match dict_get CODE_EXAMPLE_SOURCES language with
      | None =>
          (inr (code_result query []
                  (Some ("Code examples for " +:+ language
                           +:+ " are not available"))), st)
      | Some template =>
          let search_url :=
            PyStr.format template (CodeExampleQuery.function query) in
          let (reply, st) := session_get net search_url st in
          match reply with
          | Raises e => (inl e, st)
          | Response status body =>
              if negb (status =? 200) then
                (inr (code_result query []
                        (Some ("Failed to fetch code examples: "
                                 +:+ PyStr.of_int status))), st)
              else
                match body with
                | inl e => (inl e, st)
                | inr soup =>
                    let examples :=
                      code_examples language (CodeExampleQuery.function query)
                        (CodeExampleQuery.max_examples query) soup in
                    (inr (code_result query examples None), st)
                end
          end
      end
  end.

Definition get_code_examples (lower : string -> string) (net : Net)
  (query : CodeExampleQuery.t) (st : State)
  : Outcome CodeExampleResult.t * State :=
  let (body, st') := get_code_examples_try lower net query st in
  (except_Exception (fun e => code_result query [] (Some e)) body, st').

(** ** The other endpoints *)

(** [list(d.keys())] on a table written as a literal. *)
Definition keys (d : list (string * string)) : list string := map fst d.

(** [get_available_documentation]: the one item of the dict it returns. *)
Definition get_available_documentation : list (string * list string) :=
  [("available_libraries", keys DOC_SOURCES)].

Definition health_check : Dict := [("status", "healthy")].

(** ** The service: requests handled one after the other *)

Inductive Request : Type :=
| SearchDocs (query : DocumentationQuery.t)
| CodeExamples (query : CodeExampleQuery.t).

Inductive Answer : Type :=
| DocAnswer (o : Outcome DocumentationResult.t)
| CodeAnswer (o : Outcome CodeExampleResult.t).

Definition handle (lower : string -> string) (net : Net) (req : Request)
  (st : State) : Answer * State :=
  match req with
  | SearchDocs q =>
      let (o, st') := search_documentation lower net q st in (DocAnswer o, st')
  | CodeExamples q =>
      let (o, st') := get_code_examples lower net q st in (CodeAnswer o, st')
  end.

Fixpoint serve (lower : string -> string) (net : Net) (reqs : list Request)
  (st : State) : list Answer * State :=
  match reqs with
  | [] => ([], st)
  | req :: rest =>
      let (a, st1) := handle lower net req st in
      let (answers, st2) := serve lower net rest st1 in
      (a :: answers, st2)
  end.

(** The states the process can be in: those a run from the start leads to. *)
Definition reachable (lower : string -> string) (net : Net) (st : State) : Prop :=
  exists reqs, snd (serve lower net reqs initial) = st.

(** * The vocabulary of the properties *)

(** ** Keys, messages and paths *)

Definition has_colon (s : string) : bool := PyStr.contains ":" s.

(** What the properties that split a key assume of [str.lower]: a string
    without a colon when lowercased had none before. *)
Definition keeps_colons (lower : string -> string) : Prop :=
  forall s, has_colon (lower s) = false -> has_colon s = false.

(** The state once a request to [url] has been sent. *)
Definition sent (url : string) (st : State) : State :=
  {| DOC_CACHE := DOC_CACHE st; requests := requests st ++ [url] |}.

Definition unsupported_library (library : string) : string :=
  "Documentation for " +:+ library +:+ " is not available".

Definition fetch_failed_documentation (status : Z) : string :=
  "Failed to fetch documentation: " +:+ PyStr.of_int status.

Definition unsupported_language (language : string) : string :=
  "Code examples for " +:+ language +:+ " are not available".

Definition fetch_failed_examples (status : Z) : string :=
  "Failed to fetch code examples: " +:+ PyStr.of_int status.

(** What [search_documentation] extracts and returns on success. *)
Definition doc_success (lower : string -> string) (query : DocumentationQuery.t)
  (soup : Soup.BeautifulSoup) : DocumentationResult.t :=
  doc_result query
    (doc_results lower (DocumentationQuery.library query)
       (DocumentationQuery.max_results query) soup) None.

(** How [search_documentation] ends when [e] is raised inside its [try]. *)
Definition doc_fault (query : DocumentationQuery.t) (e : Raised)
  : Outcome DocumentationResult.t :=
  match e with
  | Exception d => Returns (doc_result query [] (Some d))
  | BaseException d => Propagates d
  end.

(** The six ways through [search_documentation], in the order the code
    takes its decisions: each gives how the call ends and the state it
    leaves. *)
Inductive doc_outcome (lower : string -> string) (net : Net)
  (query : DocumentationQuery.t) (st : State)
  : Outcome DocumentationResult.t -> State -> Prop :=
| doc_hit cached :
    DOC_CACHE st !! cache_key query = Some cached ->
    doc_outcome lower net query st (Returns cached) st
| doc_unsupported :
    DOC_CACHE st !! cache_key query = None ->
    dict_get DOC_SOURCES (lower (DocumentationQuery.library query)) = None ->
    doc_outcome lower net query st
      (Returns
         (doc_result query []
            (Some (unsupported_library (DocumentationQuery.library query))))) st
| doc_raised base_url e :
    DOC_CACHE st !! cache_key query = None ->
    dict_get DOC_SOURCES (lower (DocumentationQuery.library query))
      = Some base_url ->
    net (length (requests st)) (doc_search_url lower base_url query) = Raises e ->
    doc_outcome lower net query st (doc_fault query e)
      (sent (doc_search_url lower base_url query) st)
| doc_failed base_url status body :
    DOC_CACHE st !! cache_key query = None ->
    dict_get DOC_SOURCES (lower (DocumentationQuery.library query))
      = Some base_url ->
    net (length (requests st)) (doc_search_url lower base_url query)
      = Response status body ->
    status <> 200 ->
    doc_outcome lower net query st
      (Returns (doc_result query [] (Some (fetch_failed_documentation status))))
      (sent (doc_search_url lower base_url query) st)
| doc_unreadable base_url e :
    DOC_CACHE st !! cache_key query = None ->
    dict_get DOC_SOURCES (lower (DocumentationQuery.library query))
      = Some base_url ->
    net (length (requests st)) (doc_search_url lower base_url query)
      = Response 200 (inl e) ->
    doc_outcome lower net query st (doc_fault query e)
      (sent (doc_search_url lower base_url query) st)
| doc_extracted base_url soup :
    DOC_CACHE st !! cache_key query = None ->
    dict_get DOC_SOURCES (lower (DocumentationQuery.library query))
      = Some base_url ->
    net (length (requests st)) (doc_search_url lower base_url query)
      = Response 200 (inr soup) ->
    doc_outcome lower net query st (Returns (doc_success lower query soup))
      (cache_store (cache_key query) (doc_success lower query soup)
         (sent (doc_search_url lower base_url query) st)).

(** The URL [get_code_examples] requests. *)
Definition code_search_url (template : string) (query : CodeExampleQuery.t)
  : string :=
  PyStr.format template (CodeExampleQuery.function query).

Definition code_success (language : string) (query : CodeExampleQuery.t)
  (soup : Soup.BeautifulSoup) : CodeExampleResult.t :=
  code_result query
    (code_examples language (CodeExampleQuery.function query)
       (CodeExampleQuery.max_examples query) soup) None.

(** How [get_code_examples] ends when [e] is raised inside its [try]. *)
Definition code_fault (query : CodeExampleQuery.t) (e : Raised)
  : Outcome CodeExampleResult.t :=
  match e with
  | Exception d => Returns (code_result query [] (Some d))
  | BaseException d => Propagates d
  end.

(** The six ways through [get_code_examples]. *)
Inductive code_outcome (lower : string -> string) (net : Net)
  (query : CodeExampleQuery.t) (st : State)
  : Outcome CodeExampleResult.t -> State -> Prop :=
| code_no_language :
    CodeExampleQuery.language query = None ->
    code_outcome lower net query st
      (Returns (code_result query [] (Some none_has_no_lower))) st
| code_unsupported l :
    CodeExampleQuery.language query = Some l ->
    dict_get CODE_EXAMPLE_SOURCES (lower l) = None ->
    code_outcome lower net query st
      (Returns (code_result query [] (Some (unsupported_language (lower l))))) st
| code_raised l template e :
    CodeExampleQuery.language query = Some l ->
    dict_get CODE_EXAMPLE_SOURCES (lower l) = Some template ->
    net (length (requests st)) (code_search_url template query) = Raises e ->
    code_outcome lower net query st (code_fault query e)
      (sent (code_search_url template query) st)
| code_failed l template status body :
    CodeExampleQuery.language query = Some l ->
    dict_get CODE_EXAMPLE_SOURCES (lower l) = Some template ->
    net (length (requests st)) (code_search_url template query)
      = Response status body ->
    status <> 200 ->
    code_outcome lower net query st
      (Returns (code_result query [] (Some (fetch_failed_examples status))))
      (sent (code_search_url template query) st)
| code_unreadable l template e :
    CodeExampleQuery.language query = Some l ->
    dict_get CODE_EXAMPLE_SOURCES (lower l) = Some template ->
    net (length (requests st)) (code_search_url template query)
      = Response 200 (inl e) ->
    code_outcome lower net query st (code_fault query e)
      (sent (code_search_url template query) st)
| code_extracted l template soup :
    CodeExampleQuery.language query = Some l ->
    dict_get CODE_EXAMPLE_SOURCES (lower l) = Some template ->
    net (length (requests st)) (code_search_url template query)
      = Response 200 (inr soup) ->
    code_outcome lower net query st
      (Returns (code_success (lower l) query soup))
      (sent (code_search_url template query) st).



(** A map over what a call returns. *)
Definition returned {R A} (f : R -> A) (o : Outcome R) : Outcome A :=
  match o with
  | Returns r => Returns (f r)
  | Propagates e => Propagates e
  end.

(** ** The invariant of the cache *)

(** An entry under [key] is the success result of a query with that key
    whose library the registry knows. *)
Definition stored_by_success (lower : string -> string) (key : string)
  (r : DocumentationResult.t) : Prop :=
  exists query soup base_url,
    cache_key query = key
    /\ dict_get DOC_SOURCES (lower (DocumentationQuery.library query))
       = Some base_url
    /\ r = doc_success lower query soup.

Definition cache_inv (lower : string -> string) (st : State) : Prop :=
  forall key r, DOC_CACHE st !! key = Some r -> stored_by_success lower key r.

(** ** Python examples *)

(** The elements of the document in document order. *)
Definition document_order (soup : Soup.BeautifulSoup) : list Soup.Located :=
  flat_map (Soup.walk []) soup.

Definition is_heading (le : Soup.Located) : bool :=
  existsb (fun n => Soup.has_name n (snd le)) headings.

(** The title an example gets: the stripped text of the heading found
    before the block, or ["Example"]. *)
Definition heading_title (code_block : Soup.Element) : string :=
  match Soup.find_previous headings code_block with
  | Some h => PyStr.strip (Soup.text h)
  | None => "Example"
  end.

Definition example_of (code_block : Soup.Element) : Dict :=
  [ ("title", heading_title code_block);
    ("code", PyStr.strip (Soup.text (Soup.node code_block)));
    ("language", "python") ].

Definition mentions (function : string) (code_block : Soup.Element) : bool :=
  PyStr.contains function (Soup.text (Soup.node code_block)).

(** The [pre] tags of the document, in document order. *)
Definition pre_blocks (soup : Soup.BeautifulSoup) : list Soup.Element :=
  List.filter (fun e => Soup.has_name "pre" (Soup.node e)) (Soup.elements soup).

(** ** Records *)

(** A string that [strip] leaves as it is. *)
Definition trimmed (s : string) : Prop := PyStr.strip s = s.

(** The site the URLs of the records of a library point to. *)
Definition site_of (lower : string -> string) (library : string) : string :=
  if String.eqb (lower library) "python" then "https://docs.python.org/3/"
  else "https://developer.mozilla.org".

(** The class of the snippet that describes a result item. *)
Definition snippet_of (lower : string -> string) (library : string)
  : Soup.selector :=
  if String.eqb (lower library) "python" then Soup.sel_context
  else Soup.sel_excerpt.

(** The record of a result item whose first anchor is [link]. *)
Definition record_of (lower : string -> string) (library : string)
  (item : Soup.Element) (link : Soup.PageElement) : Dict :=
  [ ("title", PyStr.strip (Soup.text link));
    ("url", site_of lower library +:+ default "None" (Soup.get "href" link));
    ("description", snippet (snippet_of lower library) item) ].

(** The shape of a record of a documentation result. *)
Definition search_record (rec : Dict) : Prop :=
  exists title url description,
    rec = [("title", title); ("url", url); ("description", description)]
    /\ trimmed title /\ trimmed description.

(** The shape of a record of a code-example result. *)
Definition example_record (rec : Dict) : Prop :=
  exists title code,
    rec = [("title", title); ("code", code); ("language", "python")]
    /\ trimmed title /\ trimmed code.

(** The result item has an anchor below it. *)
Definition has_anchor (result : Soup.Element) : bool :=
  match Soup.select_one Soup.sel_a result with
  | Some _ => true
  | None => false
  end.

(** The result items the parsing branch of a library selects. *)
Definition doc_items (lower : string -> string) (library : string)
  (soup : Soup.BeautifulSoup) : list Soup.Element :=
  if String.eqb (lower library) "python" then
    Soup.select Soup.sel_ul_search_li soup
  else if String.eqb (lower library) "javascript" then
    Soup.select Soup.sel_result_list_result soup
  else [].

(** ** Documents and requests used as concrete inputs *)

Module Fixture.
Import Soup.

Definition pre (code : string) : PageElement :=
  Tag "pre" [] [] [NavigableString code].

Definition heading (name title : string) : PageElement :=
  Tag name [] [] [NavigableString title].

(** Three code blocks under one heading; the middle one does not mention
    [list]. *)
Definition examples_page : BeautifulSoup :=
  [Tag "html" [] []
     [Tag "body" [] []
        [heading "h2" "Lists"; pre "list(a)"; pre "dict(b)"; pre "list(c)"]]].

(** A heading and a block padded with no-break spaces (U+00A0) and
    blanks. *)
Definition padded_page : BeautifulSoup :=
  [heading "h1"
     (PyStr.bytes [194; 160; 32]%N +:+ "Lists" +:+ PyStr.bytes [194; 160]%N);
   pre (PyStr.bytes [10; 194; 160]%N +:+ "list(a)"
          +:+ PyStr.bytes [226; 128; 131; 10]%N)].

Definition item (href title context : string) : PageElement :=
  Tag "li" [] []
    [Tag "a" [] [("href", href)] [NavigableString title];
     Tag "span" ["context"] [] [NavigableString context]].

(** A result page of docs.python.org with two results. *)
Definition results_page : BeautifulSoup :=
  [Tag "html" [] []
     [Tag "body" [] []
        [Tag "ul" ["search"] []
           [item "library/stdtypes.html" "Built-in Types" "list objects";
            item "tutorial/datastructures.html" "Data Structures" "more on lists"]]]].

(** A result list whose first item has no anchor and whose second has an
    anchor without [href]. *)
Definition ragged_page : BeautifulSoup :=
  [Tag "ul" ["search"] []
     [Tag "li" [] [] [NavigableString "no link"];
      Tag "li" [] [] [Tag "a" [] [] [NavigableString " Built-in Types "]]]].

Definition net_ok (page : BeautifulSoup) : Net := fun _ _ => Response 200 (inr page).
Definition net_status (status : Z) : Net := fun _ _ => Response status (inr []).
Definition net_down : Net :=
  fun _ _ => Raises (Exception "Cannot connect to host").

Definition docs (library term : string) (max_results : Z) : DocumentationQuery.t :=
  {| DocumentationQuery.library := library;
     DocumentationQuery.term := term;
     DocumentationQuery.max_results := Some max_results |}.

Definition code (language function : string) (max_examples : Z)
  : CodeExampleQuery.t :=
  {| CodeExampleQuery.library := "python";
     CodeExampleQuery.function := function;
     CodeExampleQuery.language := Some language;
     CodeExampleQuery.max_examples := Some max_examples |}.


Definition python_template : string :=
  "https://docs.python.org/3/search.html?q={}&check_keywords=yes&area=default".

Definition python_search_list : string :=
  "https://docs.python.org/3/search.html?q=list&check_keywords=yes&area=default".

End Fixture.

(** * Properties *)

(** ** Strings and slices *)

#[local] Arguments String.append : simpl nomatch.

Lemma prefix_app (a b : string) :
  String.prefix a b = true <-> exists s, b = a +:+ s.
Proof.
  revert b; induction a as [|c a IH]; intros [|d b]; simpl.
  - split; [intros _; exists ""; reflexivity | reflexivity].
  - split; [intros _; exists (String d b); reflexivity | reflexivity].
  - split; [discriminate | intros [s Hs]; discriminate].
  - destruct (Ascii.ascii_dec c d) as [->|Hne].
    + rewrite IH. split; intros [s Hs]; exists s.
      * now rewrite Hs.
      * now injection Hs.
    + split; [discriminate | intros [s Hs]]. congruence.
Qed.

Lemma contains_nil (needle : string) :
  PyStr.contains needle "" = String.prefix needle "".
Proof. unfold PyStr.contains. now rewrite orb_false_r. Qed.

Lemma contains_cons (needle : string) (c : ascii) (r : string) :
  PyStr.contains needle (String c r)
  = String.prefix needle (String c r) || PyStr.contains needle r.
Proof. reflexivity. Qed.

(** [needle in hay] holds exactly when [hay] is some text, [needle], and
    some more text. *)
Lemma contains_spec (needle hay : string) :
  PyStr.contains needle hay = true <-> exists p s, hay = p +:+ needle +:+ s.
Proof.
  induction hay as [|c r IH].
  - rewrite contains_nil, prefix_app. split.
    + intros [s Hs]. exists "", s. exact Hs.
    + intros ([|d p] & s & Hs); [|discriminate]. exists s. exact Hs.
  - rewrite contains_cons, orb_true_iff, prefix_app, IH. split.
    + intros [[s Hs]|(p & s & Hs)].
      * exists "", s. exact Hs.
      * exists (String c p), s. simpl. now rewrite Hs.
    + intros ([|d p] & s & Hs).
      * left. exists s. exact Hs.
      * right. exists p, s. simpl in Hs. now injection Hs.
Qed.

Lemma contains_append_r (prefix0 s : string) :
  PyStr.contains s (prefix0 +:+ s) = true.
Proof.
  apply contains_spec. exists prefix0, "".
  f_equal. clear. induction s as [|c s IH]; simpl; congruence.
Qed.

Lemma length_append (a x : string) :
  String.length (a +:+ x) = (String.length a + String.length x)%nat.
Proof. induction a as [|c a IH]; simpl; congruence. Qed.

Lemma append_inj_length (a b x y : string) :
  String.length a = String.length b -> a +:+ x = b +:+ y -> a = b /\ x = y.
Proof.
  revert b; induction a as [|c a IH]; intros [|d b] Hlen Heq;
    simpl in *; try discriminate.
  - now split.
  - injection Heq as -> Heq. destruct (IH b) as [-> ->]; auto.
Qed.

(** Two keys with the same term are equal only when the libraries are,
    letter for letter. *)
Lemma append_cancel_r (a b x : string) : a +:+ x = b +:+ x -> a = b.
Proof.
  intros Heq. apply (append_inj_length a b x x); [|exact Heq].
  apply (f_equal String.length) in Heq. rewrite !length_append in Heq. lia.
Qed.

Lemma has_colon_cons (c : ascii) (s : string) :
  has_colon (String c s) = Ascii.eqb c ":" || has_colon s.
Proof.
  unfold has_colon. rewrite contains_cons. f_equal.
  destruct (Ascii.eqb_spec c ":") as [->|Hne].
  - apply prefix_app. now exists s.
  - destruct (String.prefix ":" (String c s)) eqn:E; [|reflexivity].
    apply prefix_app in E as [r Hr]. simpl in Hr. congruence.
Qed.

Lemma lower_char_colon (c : ascii) :
  Ascii.eqb (PyStr.lower_char c) ":" = Ascii.eqb c ":".
Proof. destruct c as [[] [] [] [] [] [] [] []]; reflexivity. Qed.

Lemma has_colon_lower (s : string) :
  has_colon (PyStr.ascii_lower s) = has_colon s.
Proof.
  induction s as [|c s IH]; [reflexivity|].
  simpl PyStr.ascii_lower. now rewrite !has_colon_cons, lower_char_colon, IH.
Qed.

(** The function the concrete inputs are run with is as the properties
    assume. *)
Lemma ascii_lower_keeps_colons : keeps_colons PyStr.ascii_lower.
Proof. intros s. now rewrite has_colon_lower. Qed.

(** A key [library:term] splits in one way into a library without a colon
    and a term. *)
Lemma key_split_unique (a b x y : string) :
  has_colon a = false -> has_colon b = false ->
  a +:+ ":" +:+ x = b +:+ ":" +:+ y -> a = b /\ x = y.
Proof.
  revert b; induction a as [|c a IH]; intros [|d b] Ha Hb Heq; simpl in Heq.
  - injection Heq as ->. now split.
  - injection Heq as <- _. now rewrite has_colon_cons in Hb.
  - injection Heq as -> _. now rewrite has_colon_cons in Ha.
  - injection Heq as -> Heq.
    rewrite has_colon_cons in Ha, Hb.
    apply orb_false_iff in Ha as [_ Ha]. apply orb_false_iff in Hb as [_ Hb].
    destruct (IH b Ha Hb Heq) as [-> ->]. now split.
Qed.


Lemma slice_to_nonneg {A} (n : Z) (l : list A) :
  0 <= n -> PyStr.slice_to (Some n) l = take (Z.to_nat n) l.
Proof.
  intros Hn. unfold PyStr.slice_to. destruct (Z.leb_spec 0 n); [reflexivity|lia].
Qed.


(** ** The registries *)

Lemma dict_get_cons (k v : string) (d : list (string * string)) (key : string) :
  dict_get ((k, v) :: d) key = if String.eqb k key then Some v else dict_get d key.
Proof. unfold dict_get. simpl. now destruct (String.eqb k key). Qed.

Lemma dict_get_nil (key : string) : dict_get [] key = None.
Proof. reflexivity. Qed.

(** Goes through the items of a table written as a literal: [tac] closes
    the case of each key. *)
Ltac dict_cases H tac :=
  repeat (rewrite dict_get_cons in H;
          match type of H with
          | (if String.eqb ?k ?key then _ else _) = _ =>
              destruct (String.eqb_spec k key) as [<-|?]; [tac|]
          end);
  try (rewrite dict_get_nil in H; discriminate H).

Lemma DOC_SOURCES_get (k base_url : string) :
  dict_get DOC_SOURCES k = Some base_url ->
  has_colon k = false /\ String.eqb base_url "" = false.
Proof.
  unfold DOC_SOURCES. intros H.
  dict_cases H ltac:(injection H as <-; split; reflexivity).
Qed.

Lemma CODE_EXAMPLE_SOURCES_get (k template : string) :
  dict_get CODE_EXAMPLE_SOURCES k = Some template ->
  k = "python" \/ k = "javascript" \/ k = "nodejs".
Proof.
  unfold CODE_EXAMPLE_SOURCES. intros H. dict_cases H ltac:(now auto).
Qed.

(** A library the registry knows, in whatever case, has no colon. *)
Lemma registered_no_colon (lower : string -> string) (library base_url : string) :
  keeps_colons lower ->
  dict_get DOC_SOURCES (lower library) = Some base_url ->
  has_colon library = false.
Proof. intros Hlower H. apply DOC_SOURCES_get in H as [H _]. now apply Hlower. Qed.


(** ** What [strip] leaves *)

Lemma append_empty_r (s : string) : s +:+ "" = s.
Proof. induction s as [|c s IH]; simpl; congruence. Qed.

Lemma append_assoc (a b c : string) : (a +:+ b) +:+ c = a +:+ b +:+ c.
Proof. induction a as [|x a IH]; simpl; congruence. Qed.

Lemma rev_append (a b : string) :
  PyStr.rev (a +:+ b) = PyStr.rev b +:+ PyStr.rev a.
Proof.
  induction a as [|x a IH]; simpl.
  - now rewrite append_empty_r.
  - now rewrite IH, append_assoc.
Qed.

Lemma rev_involutive (s : string) : PyStr.rev (PyStr.rev s) = s.
Proof.
  induction s as [|c s IH]; [reflexivity|]. simpl.
  now rewrite rev_append, IH.
Qed.

Lemma drop_prefix_spec (t s r : string) :
  PyStr.drop_prefix t s = Some r <-> s = t +:+ r.
Proof.
  revert s; induction t as [|a t IH]; intros s; simpl.
  - split; congruence.
  - destruct s as [|b s]; [split; discriminate|].
    destruct (Ascii.eqb_spec a b) as [->|Hne].
    + rewrite IH. split; congruence.
    + split; [discriminate | congruence].
Qed.

Lemma drop_first_some (chars : list string) (s r : string) :
  PyStr.drop_first chars s = Some r -> exists t, In t chars /\ s = t +:+ r.
Proof.
  induction chars as [|t chars IH]; simpl; [discriminate|].
  destruct (PyStr.drop_prefix t s) as [r'|] eqn:E.
  - intros [= <-]. exists t. split; [now left | now apply drop_prefix_spec].
  - intros H. destruct (IH H) as (t' & Hin & Hs). exists t'. auto.
Qed.

Lemma drop_first_none (chars : list string) (s t r : string) :
  PyStr.drop_first chars s = None -> In t chars -> s <> t +:+ r.
Proof.
  induction chars as [|t' chars IH]; simpl; [contradiction|].
  destruct (PyStr.drop_prefix t' s) as [r'|] eqn:E; [discriminate|].
  intros H [-> | Hin] Hs.
  - apply drop_prefix_spec in Hs. congruence.
  - now apply (IH H Hin).
Qed.

(** A string that starts with none of the characters has no start that
    does. *)
Lemma drop_first_prefix (chars : list string) (a q : string) :
  PyStr.drop_first chars (a +:+ q) = None -> PyStr.drop_first chars a = None.
Proof.
  intros H. destruct (PyStr.drop_first chars a) as [r|] eqn:E; [|reflexivity].
  apply drop_first_some in E as (t & Hin & ->).
  elim (drop_first_none chars _ t (r +:+ q) H Hin). apply append_assoc.
Qed.

Lemma strip_front_upto_clean (chars : list string) :
  forallb (fun t => negb (String.eqb t "")) chars = true ->
  forall n s,
    (String.length s <= n)%nat ->
    PyStr.drop_first chars (PyStr.strip_front_upto n chars s) = None.
Proof.
  intros Hne. induction n as [|n IH]; intros s Hlen; simpl.
  - destruct s; [|simpl in Hlen; lia].
    destruct (PyStr.drop_first chars "") as [r|] eqn:E; [|reflexivity].
    apply drop_first_some in E as (t & Hin & Hs).
    rewrite forallb_forall in Hne. specialize (Hne t Hin).
    destruct t; [discriminate Hne | discriminate Hs].
  - destruct (PyStr.drop_first chars s) as [r|] eqn:E; [|exact E].
    apply IH. apply drop_first_some in E as (t & Hin & ->).
    rewrite forallb_forall in Hne. specialize (Hne t Hin).
    destruct t; [discriminate Hne|].
    rewrite length_append in Hlen. simpl in Hlen. lia.
Qed.

Lemma strip_front_upto_suffix (chars : list string) (n : nat) (s : string) :
  exists p, s = p +:+ PyStr.strip_front_upto n chars s.
Proof.
  revert s; induction n as [|n IH]; intros s; simpl; [now exists ""|].
  destruct (PyStr.drop_first chars s) as [r|] eqn:E; [|now exists ""].
  apply drop_first_some in E as (t & _ & ->).
  destruct (IH r) as [p Hp]. exists (t +:+ p).
  now rewrite append_assoc, <- Hp.
Qed.

Lemma strip_front_id (chars : list string) (s : string) :
  PyStr.drop_first chars s = None -> PyStr.strip_front chars s = s.
Proof.
  intros H. unfold PyStr.strip_front.
  destruct (String.length s); simpl; [reflexivity | now rewrite H].
Qed.

Lemma lstrip_clean (s : string) :
  PyStr.drop_first PyStr.whitespace (PyStr.lstrip s) = None.
Proof. now apply strip_front_upto_clean. Qed.

(** Stripping twice is stripping once. *)
Lemma strip_idempotent (s : string) : PyStr.strip (PyStr.strip s) = PyStr.strip s.
Proof.
  unfold PyStr.strip.
  set (A := PyStr.lstrip s).
  set (F := PyStr.strip_front (map PyStr.rev PyStr.whitespace) (PyStr.rev A)).
  assert (Hr : PyStr.rstrip A = PyStr.rev F) by reflexivity.
  assert (HF : PyStr.drop_first (map PyStr.rev PyStr.whitespace) F = None)
    by now apply strip_front_upto_clean.
  destruct (strip_front_upto_suffix (map PyStr.rev PyStr.whitespace)
              (String.length (PyStr.rev A)) (PyStr.rev A)) as [p Hp].
  fold (PyStr.strip_front (map PyStr.rev PyStr.whitespace) (PyStr.rev A)) in Hp.
  fold F in Hp.
  assert (HA : A = PyStr.rev F +:+ PyStr.rev p).
  { rewrite <- rev_append, <- Hp. symmetry. apply rev_involutive. }
  assert (HB : PyStr.lstrip (PyStr.rev F) = PyStr.rev F).
  { apply strip_front_id. apply (drop_first_prefix _ _ (PyStr.rev p)).
    rewrite <- HA. apply lstrip_clean. }
  rewrite Hr, HB. unfold PyStr.rstrip.
  now rewrite rev_involutive, (strip_front_id _ _ HF).
Qed.

Lemma strip_trimmed (s : string) : trimmed (PyStr.strip s).
Proof. apply strip_idempotent. Qed.

Lemma snippet_trimmed (sel : Soup.selector) (result : Soup.Element) :
  trimmed (snippet sel result).
Proof.
  unfold snippet. destruct (Soup.select_one sel result);
    [apply strip_trimmed | reflexivity].
Qed.

(** ** The paths through the handlers *)

(** A path of the relation is what the handler computes. *)
Lemma doc_outcome_run lower net query st o st' :
  doc_outcome lower net query st o st' ->
  search_documentation lower net query st = (o, st').
Proof.
  intros H. unfold search_documentation, search_documentation_try.
  destruct H as [cached Hc | Hc Hg | base e Hc Hg Hn | base status body Hc Hg Hn Hs
                | base e Hc Hg Hn | base soup Hc Hg Hn];
    rewrite Hc; try reflexivity; rewrite Hg; try reflexivity;
    destruct (DOC_SOURCES_get _ _ Hg) as [_ ->]; unfold session_get;
    rewrite Hn; try reflexivity.
  destruct (Z.eqb_spec status 200); [contradiction | reflexivity].
Qed.

(** Every call of the handler takes one of the paths. *)
Lemma search_documentation_outcome lower net query st :
  doc_outcome lower net query st
    (fst (search_documentation lower net query st))
    (snd (search_documentation lower net query st)).
Proof.
  destruct (DOC_CACHE st !! cache_key query) as [cached|] eqn:Hc.
  { rewrite (doc_outcome_run _ _ _ _ _ _ (doc_hit lower net query st cached Hc)).
    now constructor. }
  destruct (dict_get DOC_SOURCES (lower (DocumentationQuery.library query)))
    as [base|] eqn:Hg.
  2:{ rewrite (doc_outcome_run _ _ _ _ _ _
                 (doc_unsupported lower net query st Hc Hg)).
      now constructor. }
  destruct (net (length (requests st)) (doc_search_url lower base query))
    as [e | status [e | soup]] eqn:Hn.
  - rewrite (doc_outcome_run _ _ _ _ _ _
               (doc_raised lower net query st base e Hc Hg Hn)).
    now apply doc_raised.
  - destruct (Z.eq_dec status 200) as [-> | Hs].
    + rewrite (doc_outcome_run _ _ _ _ _ _
                 (doc_unreadable lower net query st base e Hc Hg Hn)).
      now apply doc_unreadable.
    + rewrite (doc_outcome_run _ _ _ _ _ _
                 (doc_failed lower net query st base status _ Hc Hg Hn Hs)).
      now apply doc_failed with (body := inl e).
  - destruct (Z.eq_dec status 200) as [-> | Hs].
    + rewrite (doc_outcome_run _ _ _ _ _ _
                 (doc_extracted lower net query st base soup Hc Hg Hn)).
      now apply doc_extracted.
    + rewrite (doc_outcome_run _ _ _ _ _ _
                 (doc_failed lower net query st base status _ Hc Hg Hn Hs)).
      now apply doc_failed with (body := inr soup).
Qed.

Lemma code_outcome_run lower net query st o st' :
  code_outcome lower net query st o st' ->
  get_code_examples lower net query st = (o, st').
Proof.
  intros H. unfold get_code_examples, get_code_examples_try.
  destruct H as [Hl | l Hl Hg | l t e Hl Hg Hn | l t status body Hl Hg Hn Hs
                | l t e Hl Hg Hn | l t soup Hl Hg Hn];
    rewrite Hl; try reflexivity; rewrite Hg; try reflexivity;
    unfold session_get; fold (code_search_url t query);
    rewrite Hn; try reflexivity.
  destruct (Z.eqb_spec status 200); [contradiction | reflexivity].
Qed.

Lemma get_code_examples_outcome lower net query st :
  code_outcome lower net query st
    (fst (get_code_examples lower net query st))
    (snd (get_code_examples lower net query st)).
Proof.
  destruct (CodeExampleQuery.language query) as [l|] eqn:Hl.
  2:{ rewrite (code_outcome_run _ _ _ _ _ _
                 (code_no_language lower net query st Hl)).
      now constructor. }
  destruct (dict_get CODE_EXAMPLE_SOURCES (lower l)) as [t|] eqn:Hg.
  2:{ rewrite (code_outcome_run _ _ _ _ _ _
                 (code_unsupported lower net query st l Hl Hg)).
      now apply code_unsupported. }
  destruct (net (length (requests st)) (code_search_url t query))
    as [e | status [e | soup]] eqn:Hn.
  - rewrite (code_outcome_run _ _ _ _ _ _
               (code_raised lower net query st l t e Hl Hg Hn)).
    now apply code_raised with (l := l).
  - destruct (Z.eq_dec status 200) as [-> | Hs].
    + rewrite (code_outcome_run _ _ _ _ _ _
                 (code_unreadable lower net query st l t e Hl Hg Hn)).
      now apply code_unreadable with (l := l).
    + rewrite (code_outcome_run _ _ _ _ _ _
                 (code_failed lower net query st l t status _ Hl Hg Hn Hs)).
      now apply code_failed with (l := l) (body := inl e).
  - destruct (Z.eq_dec status 200) as [-> | Hs].
    + rewrite (code_outcome_run _ _ _ _ _ _
                 (code_extracted lower net query st l t soup Hl Hg Hn)).
      now apply code_extracted.
    + rewrite (code_outcome_run _ _ _ _ _ _
                 (code_failed lower net query st l t status _ Hl Hg Hn Hs)).
      now apply code_failed with (l := l) (body := inr soup).
Qed.

(** A query that misses the cache and whose library the registry knows
    sends one request, to the search URL of the library. *)
Lemma search_documentation_requests lower net query st base_url :
  DOC_CACHE st !! cache_key query = None ->
  dict_get DOC_SOURCES (lower (DocumentationQuery.library query))
    = Some base_url ->
  requests (snd (search_documentation lower net query st))
  = requests st ++ [doc_search_url lower base_url query].
Proof.
  intros Hc Hg.
  destruct (search_documentation_outcome lower net query st)
    as [cached Hc' | Hc' Hg' | base' e Hc' Hg' Hn | base' status body Hc' Hg' Hn Hs
       | base' e Hc' Hg' Hn | base' soup Hc' Hg' Hn];
    try congruence;
    assert (base' = base_url) as -> by congruence; reflexivity.
Qed.

(** ** What the cache holds *)

Lemma cache_inv_initial lower : cache_inv lower initial.
Proof. intros key r H. simpl in H. now rewrite lookup_empty in H. Qed.

Lemma search_documentation_inv lower net query st :
  cache_inv lower st ->
  cache_inv lower (snd (search_documentation lower net query st)).
Proof.
  intros Hinv.
  destruct (search_documentation_outcome lower net query st)
    as [cached Hc | Hc Hg | base e Hc Hg Hn | base status body Hc Hg Hn Hs
       | base e Hc Hg Hn | base soup Hc Hg Hn]; try exact Hinv.
  intros key r. simpl. rewrite lookup_insert.
  destruct (decide (cache_key query = key)) as [<-|Hne].
  - intros [= <-]. now exists query, soup, base.
  - apply Hinv.
Qed.

Lemma get_code_examples_cache lower net query st :
  DOC_CACHE (snd (get_code_examples lower net query st)) = DOC_CACHE st.
Proof. now destruct (get_code_examples_outcome lower net query st). Qed.

Lemma handle_state lower net req st :
  snd (handle lower net req st)
  = match req with
    | SearchDocs q => snd (search_documentation lower net q st)
    | CodeExamples q => snd (get_code_examples lower net q st)
    end.
Proof.
  destruct req as [q|q]; simpl.
  - now destruct (search_documentation lower net q st).
  - now destruct (get_code_examples lower net q st).
Qed.

Lemma handle_inv lower net req st :
  cache_inv lower st -> cache_inv lower (snd (handle lower net req st)).
Proof.
  intros Hinv. rewrite handle_state. destruct req as [q|q].
  - now apply search_documentation_inv.
  - intros key r. rewrite get_code_examples_cache. apply Hinv.
Qed.

Lemma serve_state lower net req rest st :
  snd (serve lower net (req :: rest) st)
  = snd (serve lower net rest (snd (handle lower net req st))).
Proof.
  simpl. destruct (handle lower net req st) as [a st1]. simpl.
  now destruct (serve lower net rest st1).
Qed.

Lemma serve_inv lower net reqs st :
  cache_inv lower st -> cache_inv lower (snd (serve lower net reqs st)).
Proof.
  revert st; induction reqs as [|req rest IH]; intros st Hinv; [exact Hinv|].
  rewrite serve_state. apply IH. now apply handle_inv.
Qed.

Lemma reachable_inv lower net st : reachable lower net st -> cache_inv lower st.
Proof. intros [reqs <-]. apply serve_inv, cache_inv_initial. Qed.

Lemma serve_snoc lower net reqs req st :
  snd (serve lower net (reqs ++ [req]) st)
  = snd (handle lower net req (snd (serve lower net reqs st))).
Proof.
  revert st; induction reqs as [|r rest IH]; intros st.
  - simpl. destruct (handle lower net req st). reflexivity.
  - change ((r :: rest) ++ [req]) with (r :: (rest ++ [req])).
    now rewrite !serve_state, IH.
Qed.

Lemma serve_app lower net reqs1 reqs2 st :
  snd (serve lower net (reqs1 ++ reqs2) st)
  = snd (serve lower net reqs2 (snd (serve lower net reqs1 st))).
Proof.
  revert st; induction reqs1 as [|r rest IH]; intros st; [reflexivity|].
  change ((r :: rest) ++ reqs2) with (r :: (rest ++ reqs2)).
  now rewrite !serve_state, IH.
Qed.

Lemma reachable_initial lower net : reachable lower net initial.
Proof. now exists []. Qed.

Lemma reachable_handle lower net req st :
  reachable lower net st -> reachable lower net (snd (handle lower net req st)).
Proof. intros [reqs <-]. exists (reqs ++ [req]). apply serve_snoc. Qed.

Lemma reachable_search lower net query st :
  reachable lower net st ->
  reachable lower net (snd (search_documentation lower net query st)).
Proof.
  intros H. apply (reachable_handle _ _ (SearchDocs query)) in H.
  now rewrite handle_state in H.
Qed.

Lemma reachable_serve lower net reqs st :
  reachable lower net st -> reachable lower net (snd (serve lower net reqs st)).
Proof. intros [reqs0 <-]. exists (reqs0 ++ reqs). apply serve_app. Qed.

(** In a reachable cache an entry found under the key of a query whose
    library the registry knows was stored by a query with that very library
    and term. *)
Lemma cache_hit_same_query lower net st query base_url cached :
  keeps_colons lower ->
  reachable lower net st ->
  dict_get DOC_SOURCES (lower (DocumentationQuery.library query))
    = Some base_url ->
  DOC_CACHE st !! cache_key query = Some cached ->
  exists query0 soup,
    DocumentationQuery.library query0 = DocumentationQuery.library query
    /\ DocumentationQuery.term query0 = DocumentationQuery.term query
    /\ cached = doc_success lower query0 soup.
Proof.
  intros Hlower Hr Hg Hc.
  destruct (reachable_inv _ _ _ Hr _ _ Hc) as (q0 & soup & base0 & Hk & Hg0 & ->).
  exists q0, soup. unfold cache_key in Hk.
  apply key_split_unique in Hk as [Hl Ht];
    eauto using registered_no_colon.
Qed.

(** A query leaves the entries under other keys as they were. *)
Lemma search_documentation_other_key lower net query st key :
  key <> cache_key query ->
  DOC_CACHE (snd (search_documentation lower net query st)) !! key
  = DOC_CACHE st !! key.
Proof.
  intros Hne.
  destruct (search_documentation_outcome lower net query st)
    as [cached Hc | Hc Hg | base e Hc Hg Hn | base status body Hc Hg Hn Hs
       | base e Hc Hg Hn | base soup Hc Hg Hn]; try reflexivity.
  simpl. now rewrite lookup_insert_ne.
Qed.




(** ** Code examples for Python *)

Lemma with_previous_lookup {A} (seen l : list A) (i : nat) (prev : list A) (x : A) :
  Soup.with_previous seen l !! i = Some (prev, x) ->
  l !! i = Some x /\ prev = rev (take i l) ++ seen.
Proof.
  revert seen i; induction l as [|y l IH]; intros seen i H; [discriminate|].
  destruct i as [|i]; simpl in H.
  - injection H as <- <-. now split.
  - apply IH in H as [Hx ->]. split; [exact Hx|].
    simpl. now rewrite <- app_assoc.
Qed.

(** The [i]-th element of the document has before it the first [i]
    elements, nearest first. *)
Lemma elements_lookup (soup : Soup.BeautifulSoup) (i : nat) (e : Soup.Element) :
  Soup.elements soup !! i = Some e ->
  document_order soup !! i = Some (Soup.located e)
  /\ Soup.previous_elements e = rev (take i (document_order soup)).
Proof.
  unfold Soup.elements. rewrite list_lookup_fmap.
  destruct (Soup.with_previous [] (flat_map (Soup.walk []) soup) !! i)
    as [[prev x]|] eqn:H; [|discriminate].
  intros [= <-]. simpl. apply with_previous_lookup in H as [Hx ->].
  now rewrite app_nil_r.
Qed.

Lemma matches_pre (le : Soup.Located) :
  Soup.matches Soup.sel_pre le = Soup.has_name "pre" (snd le).
Proof.
  destruct le as [parents e].
  unfold Soup.matches, Soup.sel_pre, Soup.matches_compound. simpl.
  destruct e as [s|name cls attrs cs]; simpl; [reflexivity|].
  rewrite andb_true_r. destruct parents; simpl; apply andb_true_r.
Qed.

(** [soup.select('pre')]: the [pre] tags in document order. *)
Lemma select_pre (soup : Soup.BeautifulSoup) :
  Soup.select Soup.sel_pre soup
  = List.filter (fun e => Soup.has_name "pre" (Soup.node e)) (Soup.elements soup).
Proof.
  unfold Soup.select. apply List.filter_ext. intros e. apply matches_pre.
Qed.

(** The loop over the blocks keeps the blocks that mention the function. *)
Lemma omap_python_example (function : string) (blocks : list Soup.Element) :
  omap (python_example function) blocks
  = map example_of (List.filter (mentions function) blocks).
Proof.
  induction blocks as [|b blocks IH]; [reflexivity|].
  simpl. change (list_omap _ _ (python_example function) blocks)
    with (omap (python_example function) blocks).
  unfold python_example at 1. fold (mentions function b).
  destruct (mentions function b); simpl; now rewrite IH.
Qed.

(** The heading [find_previous] gives for the [i]-th element of the
    document is the last heading among the first [i] elements. *)
Lemma find_previous_nearest (soup : Soup.BeautifulSoup) (i : nat) (b : Soup.Element) :
  Soup.elements soup !! i = Some b ->
  Soup.find_previous headings b
  = snd <$> List.find is_heading (rev (take i (document_order soup))).
Proof.
  intros H. apply elements_lookup in H as [_ H].
  unfold Soup.find_previous. now rewrite H.
Qed.

(** What [get_code_examples] returns for Python, whatever [max_examples]. *)
Lemma python_examples_run lower net query st l template soup :
  CodeExampleQuery.language query = Some l ->
  lower l = "python" ->
  dict_get CODE_EXAMPLE_SOURCES "python" = Some template ->
  net (length (requests st)) (code_search_url template query)
    = Response 200 (inr soup) ->
  fst (get_code_examples lower net query st)
  = Returns
      {| CodeExampleResult.library := CodeExampleQuery.library query;
         CodeExampleResult.function := CodeExampleQuery.function query;
         CodeExampleResult.examples :=
           map example_of
             (List.filter (mentions (CodeExampleQuery.function query))
                (PyStr.slice_to (CodeExampleQuery.max_examples query)
                   (pre_blocks soup)));
         CodeExampleResult.error := None |}.
Proof.
  intros Hl Hpy Hg Hn. rewrite <- Hpy in Hg.
  rewrite (code_outcome_run _ _ _ _ _ _
             (code_extracted lower net query st l template soup Hl Hg Hn)).
  unfold code_success, code_examples, code_result. simpl. rewrite Hpy. simpl.
  now rewrite omap_python_example, select_pre.
Qed.

(** C1, as the code has it.  For a query whose language lowercases to
    ["python"] and a fetch answered with status 200 and a document, with
    [max_examples = n >= 0]: the handler looks at the first [n] [pre] blocks
    of the document only, keeps those among them whose text contains the
    function name as a case-sensitive literal substring, and returns one
    example per kept block, in document order, with no error.  A block among
    the first [n] that does not mention the function is left out and still
    uses one of the [n] places.  The title of an example is the text of the
    nearest heading ([h1] to [h6]) before the block in document order, as
    [str.strip] leaves it, or ["Example"] when there is none; its code is the
    text of the block, stripped. *)
Theorem C1_python_examples lower net query st l template soup n :
  CodeExampleQuery.language query = Some l ->
  lower l = "python" ->
  dict_get CODE_EXAMPLE_SOURCES "python" = Some template ->
  net (length (requests st)) (code_search_url template query)
    = Response 200 (inr soup) ->
  CodeExampleQuery.max_examples query = Some n ->
  0 <= n ->
  let blocks :=
    List.filter (fun e => Soup.has_name "pre" (Soup.node e)) (Soup.elements soup) in
  let considered := take (Z.to_nat n) blocks in
  let kept := List.filter (mentions (CodeExampleQuery.function query)) considered in
  fst (get_code_examples lower net query st)
    = Returns
        {| CodeExampleResult.library := CodeExampleQuery.library query;
           CodeExampleResult.function := CodeExampleQuery.function query;
           CodeExampleResult.examples :=
             map (fun b => [ ("title", heading_title b);
                             ("code", PyStr.strip (Soup.text (Soup.node b)));
                             ("language", "python") ]) kept;
           CodeExampleResult.error := None |}
  /\ (forall b,
        mentions (CodeExampleQuery.function query) b = true
        <-> exists p s,
            Soup.text (Soup.node b) = p +:+ CodeExampleQuery.function query +:+ s)
  /\ (forall i b,
        Soup.elements soup !! i = Some b ->
        heading_title b
        = match List.find is_heading (rev (take i (document_order soup))) with
          | Some h => PyStr.strip (Soup.text (snd h))
          | None => "Example"
          end).
Proof.
  intros Hl Hpy Hg Hn Hmax Hpos blocks considered kept.
  split; [|split].
  - rewrite (python_examples_run lower net query st l template soup Hl Hpy Hg Hn).
    now rewrite Hmax, slice_to_nonneg.
  - intros b. apply contains_spec.
  - intros i b Hb. unfold heading_title.
    rewrite (find_previous_nearest soup i b Hb).
    now destruct (List.find is_heading (rev (take i (document_order soup)))).
Qed.

(** At the page with the blocks [list(a)], [dict(b)], [list(c)] and
    [max_examples = 2] the one example returned is the first block; at the
    page whose heading and block are padded with no-break spaces, an em
    space and line feeds, the title and the code come without them. *)
Lemma C1_python_examples_witness :
  fst (get_code_examples PyStr.ascii_lower (Fixture.net_ok Fixture.examples_page)
         (Fixture.code "Python" "list" 2) initial)
  = Returns
      {| CodeExampleResult.library := "python";
         CodeExampleResult.function := "list";
         CodeExampleResult.examples :=
           [[("title", "Lists"); ("code", "list(a)"); ("language", "python")]];
         CodeExampleResult.error := None |}
  /\ fst (get_code_examples PyStr.ascii_lower (Fixture.net_ok Fixture.padded_page)
            (Fixture.code "python" "list" 2) initial)
     = Returns
         {| CodeExampleResult.library := "python";
            CodeExampleResult.function := "list";
            CodeExampleResult.examples :=
              [[("title", "Lists"); ("code", "list(a)"); ("language", "python")]];
            CodeExampleResult.error := None |}.
Proof.
  split.
  - destruct (C1_python_examples PyStr.ascii_lower
                (Fixture.net_ok Fixture.examples_page)
                (Fixture.code "Python" "list" 2) initial "Python"
                Fixture.python_template Fixture.examples_page 2
                eq_refl eq_refl eq_refl eq_refl eq_refl)
      as [H _]; [lia|].
    rewrite H. reflexivity.
  - destruct (C1_python_examples PyStr.ascii_lower
                (Fixture.net_ok Fixture.padded_page)
                (Fixture.code "python" "list" 2) initial "python"
                Fixture.python_template Fixture.padded_page 2
                eq_refl eq_refl eq_refl eq_refl eq_refl)
      as [H _]; [lia|].
    rewrite H. reflexivity.
Defined.

(** C1 as stated fails.  On the page with the blocks [list(a)], [dict(b)],
    [list(c)] the blocks that mention [list] are the first and the third,
    and the first two of the kept blocks are both of them; with
    [max_examples = 2] the handler returns the first block alone: the block
    [dict(b)] has used the second place. *)
Lemma C1_counterexample :
  map (fun b => Soup.text (Soup.node b))
      (Soup.select Soup.sel_pre Fixture.examples_page)
  = ["list(a)"; "dict(b)"; "list(c)"]
  /\ map (fun b => Soup.text (Soup.node b))
         (take 2 (List.filter (mentions "list")
                    (Soup.select Soup.sel_pre Fixture.examples_page)))
     = ["list(a)"; "list(c)"]
  /\ get_code_examples PyStr.ascii_lower (Fixture.net_ok Fixture.examples_page)
       (Fixture.code "python" "list" 2) initial
     = (Returns
          {| CodeExampleResult.library := "python";
             CodeExampleResult.function := "list";
             CodeExampleResult.examples :=
               [[("title", "Lists"); ("code", "list(a)"); ("language", "python")]];
             CodeExampleResult.error := None |},
        sent Fixture.python_search_list initial).
Proof. repeat split. Qed.

(** ** The order of the steps of [search_documentation] *)

(** C2, as the code has it.  The documentation handler looks in the cache
    first, then in the registry, then fetches: a query whose key is in the
    cache gets the stored entry and nothing else happens, whatever its
    library; a query whose key is not in the cache and whose library, as
    [str.lower] gives it, is not a key of the registry gets the
    unsupported-library error with no request sent; a query whose key is not
    in the cache and whose library the registry knows sends exactly one
    request. *)
Theorem C2_cache_registry_fetch lower net query st :
  (forall cached,
      DOC_CACHE st !! cache_key query = Some cached ->
      search_documentation lower net query st = (Returns cached, st))
  /\ (DOC_CACHE st !! cache_key query = None ->
      dict_get DOC_SOURCES (lower (DocumentationQuery.library query)) = None ->
      search_documentation lower net query st
      = (Returns
           {| DocumentationResult.library := DocumentationQuery.library query;
              DocumentationResult.term := DocumentationQuery.term query;
              DocumentationResult.results := [];
              DocumentationResult.error :=
                Some ("Documentation for " +:+ DocumentationQuery.library query
                        +:+ " is not available") |}, st))
  /\ (forall base_url,
      DOC_CACHE st !! cache_key query = None ->
      dict_get DOC_SOURCES (lower (DocumentationQuery.library query))
        = Some base_url ->
      requests (snd (search_documentation lower net query st))
      = requests st ++ [doc_search_url lower base_url query]).
Proof.
  split; [|split].
  - intros cached Hc. now apply doc_outcome_run, doc_hit.
  - intros Hc Hg.
    now rewrite (doc_outcome_run _ _ _ _ _ _
                   (doc_unsupported lower net query st Hc Hg)).
  - intros base Hc Hg. now apply search_documentation_requests.
Qed.

(** An unknown library and a known one, both with an empty cache. *)
Lemma C2_cache_registry_fetch_witness :
  search_documentation PyStr.ascii_lower Fixture.net_down
    (Fixture.docs "ruby" "list" 5) initial
  = (Returns
       {| DocumentationResult.library := "ruby";
          DocumentationResult.term := "list";
          DocumentationResult.results := [];
          DocumentationResult.error :=
            Some "Documentation for ruby is not available" |}, initial)
  /\ requests (snd (search_documentation PyStr.ascii_lower Fixture.net_down
                      (Fixture.docs "Python" "list" 5) initial))
     = [Fixture.python_search_list].
Proof.
  destruct (C2_cache_registry_fetch PyStr.ascii_lower Fixture.net_down
              (Fixture.docs "ruby" "list" 5) initial) as (_ & H & _).
  destruct (C2_cache_registry_fetch PyStr.ascii_lower Fixture.net_down
              (Fixture.docs "Python" "list" 5) initial) as (_ & _ & H').
  split.
  - apply H; reflexivity.
  - apply (H' "https://docs.python.org/3/"); reflexivity.
Defined.

(** C2 as stated fails.  After the query for library [python] and term
    [a:b] has been answered from the network, the query for library
    [python:a] and term [b] has the same key [python:a:b]; the registry does
    not know [python:a], and yet the handler returns the stored entry, with
    its two results and no error, not the unsupported-library error. *)
Lemma C2_counterexample :
  dict_get DOC_SOURCES (PyStr.ascii_lower "python:a") = None
  /\ cache_key (Fixture.docs "python:a" "b" 5) = cache_key (Fixture.docs "python" "a:b" 5)
  /\ fst (serve PyStr.ascii_lower (Fixture.net_ok Fixture.results_page)
            [SearchDocs (Fixture.docs "python" "a:b" 5);
             SearchDocs (Fixture.docs "python:a" "b" 5)] initial)
     = [DocAnswer
          (Returns (doc_success PyStr.ascii_lower (Fixture.docs "python" "a:b" 5)
                      Fixture.results_page));
        DocAnswer
          (Returns (doc_success PyStr.ascii_lower (Fixture.docs "python" "a:b" 5)
                      Fixture.results_page))]
  /\ DocumentationResult.error
       (doc_success PyStr.ascii_lower (Fixture.docs "python" "a:b" 5)
          Fixture.results_page) = None
  /\ length (DocumentationResult.results
               (doc_success PyStr.ascii_lower (Fixture.docs "python" "a:b" 5)
                  Fixture.results_page))
     = 2%nat.
Proof. repeat split; vm_compute; reflexivity. Qed.

(** ** A fetch answered with a status other than 200 *)

(** C3.  When the request a handler sends is answered with a status other
    than 200 (201 and the other 2xx codes included), the handler returns the
    result with the library and the term (the function) of the query, no
    results (no examples) and the fetch-failed message, which ends with the
    status in decimal; the documentation handler leaves the cache as it was,
    with no entry under the key of the query. *)
Theorem C3_fetch_failed lower net st status body :
  status <> 200 ->
  (forall query base_url,
      DOC_CACHE st !! cache_key query = None ->
      dict_get DOC_SOURCES (lower (DocumentationQuery.library query))
        = Some base_url ->
      net (length (requests st)) (doc_search_url lower base_url query)
        = Response status body ->
      fst (search_documentation lower net query st)
      = Returns
          {| DocumentationResult.library := DocumentationQuery.library query;
             DocumentationResult.term := DocumentationQuery.term query;
             DocumentationResult.results := [];
             DocumentationResult.error :=
               Some ("Failed to fetch documentation: " +:+ PyStr.of_int status) |}
      /\ DOC_CACHE (snd (search_documentation lower net query st)) = DOC_CACHE st
      /\ DOC_CACHE (snd (search_documentation lower net query st))
           !! cache_key query = None)
  /\ (forall query l template,
      CodeExampleQuery.language query = Some l ->
      dict_get CODE_EXAMPLE_SOURCES (lower l) = Some template ->
      net (length (requests st)) (code_search_url template query)
        = Response status body ->
      fst (get_code_examples lower net query st)
      = Returns
          {| CodeExampleResult.library := CodeExampleQuery.library query;
             CodeExampleResult.function := CodeExampleQuery.function query;
             CodeExampleResult.examples := [];
             CodeExampleResult.error :=
               Some ("Failed to fetch code examples: " +:+ PyStr.of_int status) |})
  /\ PyStr.contains (PyStr.of_int status)
       ("Failed to fetch documentation: " +:+ PyStr.of_int status) = true
  /\ PyStr.contains (PyStr.of_int status)
       ("Failed to fetch code examples: " +:+ PyStr.of_int status) = true.
Proof.
  intros Hs. split; [|split; [|split]].
  - intros query base Hc Hg Hn.
    rewrite (doc_outcome_run _ _ _ _ _ _
               (doc_failed lower net query st base status body Hc Hg Hn Hs)).
    simpl. auto.
  - intros query l template Hl Hg Hn.
    now rewrite (code_outcome_run _ _ _ _ _ _
                   (code_failed lower net query st l template status body
                      Hl Hg Hn Hs)).
  - apply contains_append_r.
  - apply contains_append_r.
Qed.

(** Status 404 for both handlers, and status 204 for the first. *)
Lemma C3_fetch_failed_witness :
  fst (search_documentation PyStr.ascii_lower (Fixture.net_status 404)
         (Fixture.docs "python" "list" 5) initial)
  = Returns
      {| DocumentationResult.library := "python";
         DocumentationResult.term := "list";
         DocumentationResult.results := [];
         DocumentationResult.error := Some "Failed to fetch documentation: 404" |}
  /\ fst (get_code_examples PyStr.ascii_lower (Fixture.net_status 404)
            (Fixture.code "python" "list" 3) initial)
     = Returns
         {| CodeExampleResult.library := "python";
            CodeExampleResult.function := "list";
            CodeExampleResult.examples := [];
            CodeExampleResult.error := Some "Failed to fetch code examples: 404" |}
  /\ fst (search_documentation PyStr.ascii_lower (Fixture.net_status 204)
            (Fixture.docs "react" "hooks" 5) initial)
     = Returns
         {| DocumentationResult.library := "react";
            DocumentationResult.term := "hooks";
            DocumentationResult.results := [];
            DocumentationResult.error := Some "Failed to fetch documentation: 204" |}.
Proof.
  assert (H404 : 404 <> 200) by lia. assert (H204 : 204 <> 200) by lia.
  destruct (C3_fetch_failed PyStr.ascii_lower (Fixture.net_status 404) initial
              404 (inr []) H404) as (Hdoc & Hcode & _).
  destruct (C3_fetch_failed PyStr.ascii_lower (Fixture.net_status 204) initial
              204 (inr []) H204) as (Hdoc' & _).
  split; [|split].
  - apply (Hdoc (Fixture.docs "python" "list" 5) "https://docs.python.org/3/");
      reflexivity.
  - apply (Hcode (Fixture.code "python" "list" 3) "python" Fixture.python_template);
      reflexivity.
  - apply (Hdoc' (Fixture.docs "react" "hooks" 5) "https://reactjs.org/docs/");
      reflexivity.
Defined.

(** ** Cache hits *)

(** C4.  A documentation query whose key [library:term] is in the cache gets
    the stored entry, and the state, with its log of requests, is as before:
    nothing is fetched and nothing extracted.  So when a query that misses
    the cache is answered with status 200 and a document, the same query
    asked again gets the same result from the cache, and the two calls have
    sent one request in all. *)
Theorem C4_cache_hit lower net query st :
  (forall cached,
      DOC_CACHE st !! cache_key query = Some cached ->
      search_documentation lower net query st = (Returns cached, st))
  /\ (forall base_url soup,
      DOC_CACHE st !! cache_key query = None ->
      dict_get DOC_SOURCES (lower (DocumentationQuery.library query))
        = Some base_url ->
      net (length (requests st)) (doc_search_url lower base_url query)
        = Response 200 (inr soup) ->
      let first := search_documentation lower net query st in
      let second := search_documentation lower net query (snd first) in
      fst first = Returns (doc_success lower query soup)
      /\ DOC_CACHE (snd first) !! cache_key query
         = Some (doc_success lower query soup)
      /\ fst second = fst first
      /\ snd second = snd first
      /\ requests (snd second)
         = requests st ++ [doc_search_url lower base_url query]).
Proof.
  split.
  - intros cached Hc. now apply doc_outcome_run, doc_hit.
  - intros base soup Hc Hg Hn first second. subst first second.
    rewrite (doc_outcome_run _ _ _ _ _ _
               (doc_extracted lower net query st base soup Hc Hg Hn)).
    cbn [fst snd].
    assert (Hhit : DOC_CACHE
                     (cache_store (cache_key query) (doc_success lower query soup)
                        (sent (doc_search_url lower base query) st))
                     !! cache_key query = Some (doc_success lower query soup))
      by apply lookup_insert_eq.
    rewrite (doc_outcome_run _ _ _ _ _ _ (doc_hit lower net query _ _ Hhit)).
    cbn [fst snd]. auto.
Qed.

(** The fixture of the spec: library [python], term [list], asked twice. *)
Lemma C4_cache_hit_witness :
  fst (serve PyStr.ascii_lower (Fixture.net_ok Fixture.results_page)
         [SearchDocs (Fixture.docs "python" "list" 5);
          SearchDocs (Fixture.docs "python" "list" 5)] initial)
  = [DocAnswer
       (Returns (doc_success PyStr.ascii_lower (Fixture.docs "python" "list" 5)
                   Fixture.results_page));
     DocAnswer
       (Returns (doc_success PyStr.ascii_lower (Fixture.docs "python" "list" 5)
                   Fixture.results_page))]
  /\ requests
       (snd (search_documentation PyStr.ascii_lower
               (Fixture.net_ok Fixture.results_page)
               (Fixture.docs "python" "list" 5)
               (snd (search_documentation PyStr.ascii_lower
                       (Fixture.net_ok Fixture.results_page)
                       (Fixture.docs "python" "list" 5) initial))))
     = [Fixture.python_search_list].
Proof.
  destruct (C4_cache_hit PyStr.ascii_lower (Fixture.net_ok Fixture.results_page)
              (Fixture.docs "python" "list" 5) initial) as [_ H].
  destruct (H "https://docs.python.org/3/" Fixture.results_page
              eq_refl eq_refl eq_refl) as (H1 & _ & H2 & _ & H3).
  split; [|exact H3].
  simpl. rewrite (surjective_pairing (search_documentation _ _ _ initial)).
  rewrite (surjective_pairing (search_documentation _ _ _ (snd _))).
  now rewrite H2, H1.
Defined.

(** ** Libraries and languages the registries do not know *)

(** C5.  With an empty cache, a documentation query whose library, as
    [str.lower] gives it, is not a key of the registry gets no results and
    the unsupported-library error, which names the library as supplied, and
    the state is unchanged: no request is sent.  A code-example query whose
    language, as [str.lower] gives it, is not a key of the code-example
    registry gets no examples and the unsupported-language error, which
    names the lowercased language, and no request is sent. *)
Theorem C5_unsupported lower net st :
  (forall query,
      DOC_CACHE st = ∅ ->
      dict_get DOC_SOURCES (lower (DocumentationQuery.library query)) = None ->
      search_documentation lower net query st
      = (Returns
           {| DocumentationResult.library := DocumentationQuery.library query;
              DocumentationResult.term := DocumentationQuery.term query;
              DocumentationResult.results := [];
              DocumentationResult.error :=
                Some ("Documentation for " +:+ DocumentationQuery.library query
                        +:+ " is not available") |}, st))
  /\ (forall query l,
      CodeExampleQuery.language query = Some l ->
      dict_get CODE_EXAMPLE_SOURCES (lower l) = None ->
      get_code_examples lower net query st
      = (Returns
           {| CodeExampleResult.library := CodeExampleQuery.library query;
              CodeExampleResult.function := CodeExampleQuery.function query;
              CodeExampleResult.examples := [];
              CodeExampleResult.error :=
                Some ("Code examples for " +:+ lower l +:+ " are not available") |},
         st)).
Proof.
  split.
  - intros query Hc Hg.
    assert (Hmiss : DOC_CACHE st !! cache_key query = None)
      by (rewrite Hc; apply lookup_empty).
    now rewrite (doc_outcome_run _ _ _ _ _ _
                   (doc_unsupported lower net query st Hmiss Hg)).
  - intros query l Hl Hg.
    now rewrite (code_outcome_run _ _ _ _ _ _
                   (code_unsupported lower net query st l Hl Hg)).
Qed.

Lemma C5_unsupported_witness :
  search_documentation PyStr.ascii_lower Fixture.net_down
    (Fixture.docs "Ruby" "list" 5) initial
  = (Returns
       {| DocumentationResult.library := "Ruby";
          DocumentationResult.term := "list";
          DocumentationResult.results := [];
          DocumentationResult.error :=
            Some "Documentation for Ruby is not available" |}, initial)
  /\ get_code_examples PyStr.ascii_lower Fixture.net_down
       (Fixture.code "Ruby" "puts" 3) initial
     = (Returns
          {| CodeExampleResult.library := "python";
             CodeExampleResult.function := "puts";
             CodeExampleResult.examples := [];
             CodeExampleResult.error :=
               Some "Code examples for ruby are not available" |}, initial).
Proof.
  destruct (C5_unsupported PyStr.ascii_lower Fixture.net_down initial)
    as [Hdoc Hcode].
  split.
  - apply (Hdoc (Fixture.docs "Ruby" "list" 5)); reflexivity.
  - apply (Hcode (Fixture.code "Ruby" "puts" 3) "Ruby"); reflexivity.
Defined.

(** ** The bound on the number of records *)






(** ** Faults *)




(** ** Registered sources without a parsing branch *)

Lemma doc_results_other lower (library : string) (max_results : option Z)
  (soup : Soup.BeautifulSoup) :
  lower library <> "python" -> lower library <> "javascript" ->
  doc_results lower library max_results soup = [].
Proof.
  intros Hp Hj. unfold doc_results.
  destruct (String.eqb_spec (lower library) "python"); [contradiction|].
  destruct (String.eqb_spec (lower library) "javascript"); [contradiction|].
  reflexivity.
Qed.

(** C8.  For a library the documentation registry knows other than
    [python] and [javascript], the handler returns no records and no error
    when its request is answered with status 200 and a document, and also
    when, in a reachable state, it answers from the cache.  For a language
    the code-example registry knows other than [python], the handler returns
    no examples and no error when its request is answered with status 200
    and a document.  This result differs from the unsupported-library and
    unsupported-language results, whose [error] is set. *)
Theorem C8_no_strategy lower net st :
  (forall query base_url soup,
      dict_get DOC_SOURCES (lower (DocumentationQuery.library query))
        = Some base_url ->
      lower (DocumentationQuery.library query) <> "python" ->
      lower (DocumentationQuery.library query) <> "javascript" ->
      DOC_CACHE st !! cache_key query = None ->
      net (length (requests st)) (doc_search_url lower base_url query)
        = Response 200 (inr soup) ->
      fst (search_documentation lower net query st)
      = Returns (doc_result query [] None))
  /\ (forall query base_url cached,
      keeps_colons lower ->
      reachable lower net st ->
      dict_get DOC_SOURCES (lower (DocumentationQuery.library query))
        = Some base_url ->
      lower (DocumentationQuery.library query) <> "python" ->
      lower (DocumentationQuery.library query) <> "javascript" ->
      DOC_CACHE st !! cache_key query = Some cached ->
      fst (search_documentation lower net query st)
      = Returns (doc_result query [] None))
  /\ (forall query l template soup,
      CodeExampleQuery.language query = Some l ->
      dict_get CODE_EXAMPLE_SOURCES (lower l) = Some template ->
      lower l <> "python" ->
      net (length (requests st)) (code_search_url template query)
        = Response 200 (inr soup) ->
      fst (get_code_examples lower net query st)
      = Returns (code_result query [] None))
  /\ (forall query,
      doc_result query [] None
      <> doc_result query []
           (Some (unsupported_library (DocumentationQuery.library query))))
  /\ (forall query l,
      code_result query [] None
      <> code_result query [] (Some (unsupported_language l))).
Proof.
  split; [|split; [|split; [|split]]].
  - intros query base soup Hg Hp Hj Hc Hn.
    rewrite (doc_outcome_run _ _ _ _ _ _
               (doc_extracted lower net query st base soup Hc Hg Hn)).
    simpl. unfold doc_success. now rewrite doc_results_other.
  - intros query base cached Hlower Hr Hg Hp Hj Hc.
    rewrite (doc_outcome_run _ _ _ _ _ _ (doc_hit lower net query st cached Hc)).
    simpl.
    destruct (cache_hit_same_query _ _ _ _ _ _ Hlower Hr Hg Hc)
      as (q0 & soup & Hl & Ht & ->).
    unfold doc_success. rewrite doc_results_other by (rewrite Hl; assumption).
    unfold doc_result. now rewrite Hl, Ht.
  - intros query l template soup Hl Hg Hp Hn.
    rewrite (code_outcome_run _ _ _ _ _ _
               (code_extracted lower net query st l template soup Hl Hg Hn)).
    simpl. unfold code_success, code_examples.
    destruct (String.eqb_spec (lower l) "python"); [contradiction|reflexivity].
  - intros query. unfold doc_result. congruence.
  - intros query l. unfold code_result. congruence.
Qed.

(** The page with two results of docs.python.org, served for [React]; the
    same query asked again, with another bound, and answered from the cache;
    the page with three blocks, served for the language [nodejs]. *)
Lemma C8_no_strategy_witness :
  fst (search_documentation PyStr.ascii_lower (Fixture.net_ok Fixture.results_page)
         (Fixture.docs "React" "hooks" 5) initial)
  = Returns (doc_result (Fixture.docs "React" "hooks" 5) [] None)
  /\ fst (search_documentation PyStr.ascii_lower (Fixture.net_ok Fixture.results_page)
            (Fixture.docs "React" "hooks" 2)
            (snd (handle PyStr.ascii_lower (Fixture.net_ok Fixture.results_page)
                    (SearchDocs (Fixture.docs "React" "hooks" 5)) initial)))
     = Returns (doc_result (Fixture.docs "React" "hooks" 2) [] None)
  /\ fst (get_code_examples PyStr.ascii_lower (Fixture.net_ok Fixture.examples_page)
            (Fixture.code "nodejs" "list" 3) initial)
     = Returns (code_result (Fixture.code "nodejs" "list" 3) [] None).
Proof.
  destruct (C8_no_strategy PyStr.ascii_lower
              (Fixture.net_ok Fixture.results_page) initial) as (Hdoc & _).
  destruct (C8_no_strategy PyStr.ascii_lower
              (Fixture.net_ok Fixture.results_page)
              (snd (handle PyStr.ascii_lower (Fixture.net_ok Fixture.results_page)
                      (SearchDocs (Fixture.docs "React" "hooks" 5)) initial)))
    as (_ & Hhit & _).
  destruct (C8_no_strategy PyStr.ascii_lower
              (Fixture.net_ok Fixture.examples_page) initial)
    as (_ & _ & Hcode & _).
  split; [|split].
  - apply (Hdoc (Fixture.docs "React" "hooks" 5) "https://reactjs.org/docs/"
             Fixture.results_page); try reflexivity; discriminate.
  - apply (Hhit (Fixture.docs "React" "hooks" 2) "https://reactjs.org/docs/"
             (doc_success PyStr.ascii_lower (Fixture.docs "React" "hooks" 5)
                Fixture.results_page));
      [ exact ascii_lower_keeps_colons
      | exact (reachable_handle _ _ _ _ (reachable_initial _ _))
      | reflexivity | discriminate | discriminate | vm_compute; reflexivity ].
  - apply (Hcode (Fixture.code "nodejs" "list" 3) "nodejs"
             "https://nodejs.org/api/all.html#all_{}" Fixture.examples_page);
      try reflexivity; discriminate.
Defined.

(** ** The entries of the cache *)

(** C9.  In every state the process can reach, every entry of the cache has
    no error, has a library that [str.lower] takes to a key of the registry,
    and is the success result of a query with the key it is stored under.  A
    request either leaves the cache as it was or is a documentation query
    that missed the cache, whose library the registry knows, whose request
    was answered with status 200 and a document, and whose success result is
    the one entry added. *)
Theorem C9_cache_entries lower net st :
  reachable lower net st ->
  (forall key r,
      DOC_CACHE st !! key = Some r ->
      DocumentationResult.error r = None
      /\ is_Some (dict_get DOC_SOURCES (lower (DocumentationResult.library r)))
      /\ exists query soup,
          cache_key query = key /\ r = doc_success lower query soup)
  /\ (forall req,
      DOC_CACHE (snd (handle lower net req st)) = DOC_CACHE st
      \/ exists query base_url soup,
          req = SearchDocs query
          /\ DOC_CACHE st !! cache_key query = None
          /\ dict_get DOC_SOURCES (lower (DocumentationQuery.library query))
             = Some base_url
          /\ net (length (requests st)) (doc_search_url lower base_url query)
             = Response 200 (inr soup)
          /\ fst (handle lower net req st)
             = DocAnswer (Returns (doc_success lower query soup))
          /\ DocumentationResult.error (doc_success lower query soup) = None
          /\ DOC_CACHE (snd (handle lower net req st))
             = <[cache_key query := doc_success lower query soup]> (DOC_CACHE st)).
Proof.
  intros Hr. split.
  - intros key r Hc.
    destruct (reachable_inv _ _ _ Hr _ _ Hc) as (q & soup & base & Hk & Hg & ->).
    split; [reflexivity|]. split; [simpl; eauto|]. now exists q, soup.
  - intros [q|q].
    + destruct (DOC_CACHE st !! cache_key q) as [cached|] eqn:Hc;
        [left; simpl;
         now rewrite (doc_outcome_run _ _ _ _ _ _ (doc_hit lower net q st cached Hc))|].
      destruct (dict_get DOC_SOURCES (lower (DocumentationQuery.library q)))
        as [base|] eqn:Hg;
        [|left; simpl;
          now rewrite (doc_outcome_run _ _ _ _ _ _
                         (doc_unsupported lower net q st Hc Hg))].
      destruct (net (length (requests st)) (doc_search_url lower base q))
        as [e | status [e | soup]] eqn:Hn.
      * left. simpl.
        now rewrite (doc_outcome_run _ _ _ _ _ _
                       (doc_raised lower net q st base e Hc Hg Hn)).
      * left. rewrite handle_state.
        destruct (search_documentation_outcome lower net q st);
          try reflexivity; congruence.
      * destruct (Z.eq_dec status 200) as [-> | Hs].
        -- right. exists q, base, soup. simpl.
           rewrite (doc_outcome_run _ _ _ _ _ _
                      (doc_extracted lower net q st base soup Hc Hg Hn)).
           simpl. auto 10.
        -- left. simpl.
           now rewrite (doc_outcome_run _ _ _ _ _ _
                          (doc_failed lower net q st base status _ Hc Hg Hn Hs)).
    + left. rewrite handle_state. apply get_code_examples_cache.
Qed.

(** The cache after the query for [Python], [list] has been answered. *)
Lemma C9_cache_entries_witness :
  DocumentationResult.error
    (doc_success PyStr.ascii_lower (Fixture.docs "Python" "list" 5)
       Fixture.results_page) = None
  /\ is_Some (dict_get DOC_SOURCES
                (PyStr.ascii_lower
                   (DocumentationResult.library
                      (doc_success PyStr.ascii_lower
                         (Fixture.docs "Python" "list" 5)
                         Fixture.results_page)))).
Proof.
  destruct (C9_cache_entries PyStr.ascii_lower
              (Fixture.net_ok Fixture.results_page)
              (snd (handle PyStr.ascii_lower (Fixture.net_ok Fixture.results_page)
                      (SearchDocs (Fixture.docs "Python" "list" 5)) initial))
              (reachable_handle _ _ _ _ (reachable_initial _ _))) as [H _].
  destruct (H "Python:list"
              (doc_success PyStr.ascii_lower (Fixture.docs "Python" "list" 5)
                 Fixture.results_page))
    as (He & Hl & _); [vm_compute; reflexivity|].
  split; [exact He | exact Hl].
Defined.

(** ** The case of the library in the key *)

(** C10.  The key of the cache has the library as it was supplied, the
    registry is asked about the lowercased library.  Take two documentation
    queries with the same term whose libraries differ, and differ in the case
    of letters only, the registry knowing the library; from a state without
    an entry for the second: their keys differ, the first query leaves no
    entry under the key of the second, and the second query sends its own
    request.  When both requests are answered with status 200 and a document
    the cache ends up with one entry for each. *)
Theorem C10_case_sensitive_key lower net query1 query2 st base_url :
  DocumentationQuery.library query1 <> DocumentationQuery.library query2 ->
  lower (DocumentationQuery.library query1)
    = lower (DocumentationQuery.library query2) ->
  DocumentationQuery.term query1 = DocumentationQuery.term query2 ->
  dict_get DOC_SOURCES (lower (DocumentationQuery.library query1))
    = Some base_url ->
  DOC_CACHE st !! cache_key query2 = None ->
  let st1 := snd (search_documentation lower net query1 st) in
  let st2 := snd (search_documentation lower net query2 st1) in
  cache_key query1 <> cache_key query2
  /\ DOC_CACHE st1 !! cache_key query2 = None
  /\ requests st2 = requests st1 ++ [doc_search_url lower base_url query2]
  /\ (forall soup1 soup2,
        DOC_CACHE st !! cache_key query1 = None ->
        net (length (requests st)) (doc_search_url lower base_url query1)
          = Response 200 (inr soup1) ->
        net (length (requests st1)) (doc_search_url lower base_url query2)
          = Response 200 (inr soup2) ->
        DOC_CACHE st2 !! cache_key query1 = Some (doc_success lower query1 soup1)
        /\ DOC_CACHE st2 !! cache_key query2
           = Some (doc_success lower query2 soup2)
        /\ requests st2
           = requests st ++ [doc_search_url lower base_url query1;
                             doc_search_url lower base_url query2]).
Proof.
  intros Hlib Hlow Hterm Hg Hmiss st1 st2.
  assert (Hkey : cache_key query1 <> cache_key query2).
  { unfold cache_key. intros Heq. apply Hlib.
    rewrite Hterm in Heq. now apply append_cancel_r in Heq. }
  assert (Hmiss1 : DOC_CACHE st1 !! cache_key query2 = None).
  { subst st1. rewrite search_documentation_other_key; auto. }
  assert (Hg2 : dict_get DOC_SOURCES
                  (lower (DocumentationQuery.library query2)) = Some base_url)
    by now rewrite <- Hlow.
  split; [exact Hkey|]. split; [exact Hmiss1|].
  split; [now apply search_documentation_requests|].
  intros soup1 soup2 Hc1 Hn1 Hn2.
  assert (Hst1 : st1 = cache_store (cache_key query1) (doc_success lower query1 soup1)
                         (sent (doc_search_url lower base_url query1) st)).
  { subst st1.
    now rewrite (doc_outcome_run _ _ _ _ _ _
                   (doc_extracted lower net query1 st base_url soup1 Hc1 Hg Hn1)). }
  assert (Hst2 : st2 = cache_store (cache_key query2) (doc_success lower query2 soup2)
                         (sent (doc_search_url lower base_url query2) st1)).
  { subst st2.
    now rewrite (doc_outcome_run _ _ _ _ _ _
                   (doc_extracted lower net query2 st1 base_url soup2
                      Hmiss1 Hg2 Hn2)). }
  rewrite Hst2. simpl. rewrite lookup_insert_eq, lookup_insert_ne by auto.
  rewrite Hst1. simpl. rewrite lookup_insert_eq, <- app_assoc. auto.
Qed.

(** [Python] and [python] with the term [list], one after the other. *)
Lemma C10_case_sensitive_key_witness :
  cache_key (Fixture.docs "Python" "list" 5) <> cache_key (Fixture.docs "python" "list" 5)
  /\ requests
       (snd (search_documentation PyStr.ascii_lower
               (Fixture.net_ok Fixture.results_page)
               (Fixture.docs "python" "list" 5)
               (snd (search_documentation PyStr.ascii_lower
                       (Fixture.net_ok Fixture.results_page)
                       (Fixture.docs "Python" "list" 5) initial))))
     = [Fixture.python_search_list; Fixture.python_search_list].
Proof.
  assert (Hlib : DocumentationQuery.library (Fixture.docs "Python" "list" 5)
                 <> DocumentationQuery.library (Fixture.docs "python" "list" 5))
    by discriminate.
  destruct (C10_case_sensitive_key PyStr.ascii_lower
              (Fixture.net_ok Fixture.results_page)
              (Fixture.docs "Python" "list" 5) (Fixture.docs "python" "list" 5)
              initial "https://docs.python.org/3/"
              Hlib eq_refl eq_refl eq_refl eq_refl) as (Hkey & _ & _ & H).
  split; [exact Hkey|].
  destruct (H Fixture.results_page Fixture.results_page eq_refl eq_refl eq_refl)
    as (_ & _ & Hreq).
  exact Hreq.
Defined.

(** * Further properties of the handlers *)

(** ** The records *)

Lemma python_record_spec lower library (item : Soup.Element) (rec : Dict) :
  lower library = "python" ->
  python_record item = Some rec
  <-> exists link,
      Soup.select_one Soup.sel_a item = Some link
      /\ rec = record_of lower library item link.
Proof.
  intros Hl. unfold python_record, record_of, site_of, snippet_of, fmt_opt.
  rewrite Hl. simpl.
  destruct (Soup.select_one Soup.sel_a item) as [link|].
  - split.
    + intros [= <-]. now exists link.
    + intros (link' & [= <-] & ->). reflexivity.
  - split; [discriminate | intros (link' & H & _); discriminate].
Qed.

Lemma javascript_record_spec lower library (item : Soup.Element) (rec : Dict) :
  lower library <> "python" ->
  javascript_record item = Some rec
  <-> exists link,
      Soup.select_one Soup.sel_a item = Some link
      /\ rec = record_of lower library item link.
Proof.
  intros Hl. unfold javascript_record, record_of, site_of, snippet_of, fmt_opt.
  destruct (String.eqb_spec (lower library) "python"); [contradiction|].
  destruct (Soup.select_one Soup.sel_a item) as [link|].
  - split.
    + intros [= <-]. now exists link.
    + intros (link' & [= <-] & ->). reflexivity.
  - split; [discriminate | intros (link' & H & _); discriminate].
Qed.

Lemma slice_to_nil {A} (stop : option Z) : PyStr.slice_to stop (@nil A) = [].
Proof.
  destruct stop as [n|]; [|reflexivity]. unfold PyStr.slice_to.
  destruct (0 <=? n); apply take_nil.
Qed.

(** The records of a page are the records of its result items that have
    an anchor. *)
Lemma doc_results_spec lower library max_results soup (rec : Dict) :
  rec ∈ doc_results lower library max_results soup
  <-> exists item link,
      item ∈ PyStr.slice_to max_results (doc_items lower library soup)
      /\ Soup.select_one Soup.sel_a item = Some link
      /\ rec = record_of lower library item link.
Proof.
  unfold doc_results, doc_items.
  destruct (String.eqb_spec (lower library) "python") as [Hp|Hp];
    [|destruct (String.eqb_spec (lower library) "javascript") as [Hj|Hj]].
  - rewrite list_elem_of_omap. split.
    + intros (item & Hin & H). apply (python_record_spec lower library) in H;
        [|exact Hp]. destruct H as (link & H1 & H2). now exists item, link.
    + intros (item & link & Hin & H1 & H2). exists item. split; [exact Hin|].
      apply (python_record_spec lower library); [exact Hp | now exists link].
  - rewrite list_elem_of_omap. split.
    + intros (item & Hin & H). apply (javascript_record_spec lower library) in H;
        [|exact Hp]. destruct H as (link & H1 & H2). now exists item, link.
    + intros (item & link & Hin & H1 & H2). exists item. split; [exact Hin|].
      apply (javascript_record_spec lower library); [exact Hp | now exists link].
  - rewrite slice_to_nil. split.
    + intros H. now apply elem_of_nil in H.
    + intros (item & link & H & _). now apply elem_of_nil in H.
Qed.

(** The same as a list: one record per kept item with an anchor, in the
    order of the items. *)
Lemma doc_results_records lower library max_results soup :
  doc_results lower library max_results soup
  = omap (fun item =>
            match Soup.select_one Soup.sel_a item with
            | Some link => Some (record_of lower library item link)
            | None => None
            end)
      (PyStr.slice_to max_results (doc_items lower library soup)).
Proof.
  unfold doc_results, doc_items, record_of, site_of, snippet_of.
  destruct (String.eqb (lower library) "python");
    [|destruct (String.eqb (lower library) "javascript")].
  - reflexivity.
  - reflexivity.
  - now rewrite slice_to_nil.
Qed.

Lemma record_of_shape lower library item link :
  search_record (record_of lower library item link).
Proof.
  eexists _, _, _. split; [reflexivity|].
  split; [apply strip_trimmed | apply snippet_trimmed].
Qed.

(** X1.  The records of a documentation result.  When a query is answered
    with status 200 and a document, its records are exactly the records of
    the result items of the page, among those the slice keeps, that have an
    anchor below them, one for each and in their order: the title is the stripped text of the first anchor,
    the URL is the site of the library ([https://docs.python.org/3/] for
    [python], [https://developer.mozilla.org] otherwise) followed by the
    [href] of that anchor, or by [None] when it has none, and the description
    is the stripped text of the snippet of the item, or empty.  In every state
    the process can reach, every record of a result, from the cache too, has
    the three items [title], [url], [description] in this order, with the
    title and the description as [str.strip] leaves them. *)
Theorem X1_search_records lower net st :
  reachable lower net st ->
  (forall query base_url soup,
      DOC_CACHE st !! cache_key query = None ->
      dict_get DOC_SOURCES (lower (DocumentationQuery.library query))
        = Some base_url ->
      net (length (requests st)) (doc_search_url lower base_url query)
        = Response 200 (inr soup) ->
      exists r,
        fst (search_documentation lower net query st) = Returns r
        /\ DocumentationResult.results r
           = omap (fun item =>
                     match Soup.select_one Soup.sel_a item with
                     | Some link =>
                         Some [ ("title", PyStr.strip (Soup.text link));
                                ("url",
                                 site_of lower (DocumentationQuery.library query)
                                   +:+ default "None" (Soup.get "href" link));
                                ("description",
                                 snippet
                                   (snippet_of lower
                                      (DocumentationQuery.library query))
                                   item) ]
                     | None => None
                     end)
                  (PyStr.slice_to (DocumentationQuery.max_results query)
                     (doc_items lower (DocumentationQuery.library query) soup))
        /\ forall rec,
            rec ∈ DocumentationResult.results r
            <-> exists item link,
                item ∈ PyStr.slice_to (DocumentationQuery.max_results query)
                         (doc_items lower (DocumentationQuery.library query) soup)
                /\ Soup.select_one Soup.sel_a item = Some link
                /\ rec
                   = [ ("title", PyStr.strip (Soup.text link));
                       ("url",
                        site_of lower (DocumentationQuery.library query)
                          +:+ default "None" (Soup.get "href" link));
                       ("description",
                        snippet
                          (snippet_of lower (DocumentationQuery.library query))
                          item) ])
  /\ (forall query r rec,
      fst (search_documentation lower net query st) = Returns r ->
      rec ∈ DocumentationResult.results r ->
      search_record rec).
Proof.
  intros Hr. split.
  - intros query base soup Hc Hg Hn.
    exists (doc_success lower query soup). split; [|split].
    + now rewrite (doc_outcome_run _ _ _ _ _ _
                     (doc_extracted lower net query st base soup Hc Hg Hn)).
    + apply doc_results_records.
    + intros rec. apply doc_results_spec.
  - intros query r rec.
    destruct (search_documentation_outcome lower net query st)
      as [cached Hc | Hc Hg | base e Hc Hg Hn | base status body Hc Hg Hn Hs
         | base e Hc Hg Hn | base soup Hc Hg Hn];
      try (intros [= <-] H; now apply elem_of_nil in H).
    + intros [= <-].
      destruct (reachable_inv _ _ _ Hr _ _ Hc) as (q0 & soup & base & _ & _ & ->).
      intros (item & link & _ & _ & ->)%doc_results_spec.
      apply record_of_shape.
    + destruct e; [intros [= <-] H; now apply elem_of_nil in H | discriminate].
    + destruct e; [intros [= <-] H; now apply elem_of_nil in H | discriminate].
    + intros [= <-] (item & link & _ & _ & ->)%doc_results_spec.
      apply record_of_shape.
Qed.

(** The page whose first item has no anchor and whose second item has an
    anchor without [href]: the one record has the URL of the site followed
    by [None], the stripped title and an empty description. *)
Lemma X1_search_records_witness :
  DocumentationResult.results
    (doc_success PyStr.ascii_lower (Fixture.docs "Python" "list" 5)
       Fixture.ragged_page)
  = [[("title", "Built-in Types"); ("url", "https://docs.python.org/3/None");
      ("description", "")]].
Proof.
  destruct (X1_search_records PyStr.ascii_lower
              (Fixture.net_ok Fixture.ragged_page) initial
              (reachable_initial _ _)) as [H _].
  destruct (H (Fixture.docs "Python" "list" 5) "https://docs.python.org/3/"
              Fixture.ragged_page eq_refl eq_refl eq_refl) as (r & Hret & Heq & _).
  assert (Hr : Returns (doc_success PyStr.ascii_lower
                          (Fixture.docs "Python" "list" 5) Fixture.ragged_page)
               = Returns r) by exact Hret.
  injection Hr as <-. rewrite Heq. reflexivity.
Defined.

Lemma python_example_shape (function : string) (code_block : Soup.Element)
  (rec : Dict) :
  python_example function code_block = Some rec -> example_record rec.
Proof.
  unfold python_example.
  destruct (PyStr.contains function (Soup.text (Soup.node code_block)));
    [|discriminate].
  intros [= <-].
  exists (match Soup.find_previous headings code_block with
          | Some h => PyStr.strip (Soup.text h)
          | None => "Example"
          end), (PyStr.strip (Soup.text (Soup.node code_block))).
  split; [reflexivity|]. split; [|apply strip_trimmed].
  destruct (Soup.find_previous headings code_block);
    [apply strip_trimmed | reflexivity].
Qed.

(** X2.  Every record of a code-example result has the three items
    [title], [code], [language] in this order; the title and the code are as
    [str.strip] leaves them and the language is ["python"]. *)
Theorem X2_example_records lower net st query r rec :
  fst (get_code_examples lower net query st) = Returns r ->
  rec ∈ CodeExampleResult.examples r ->
  example_record rec.
Proof.
  destruct (get_code_examples_outcome lower net query st)
    as [Hl | l Hl Hg | l t e Hl Hg Hnet | l t status body Hl Hg Hnet Hs
       | l t e Hl Hg Hnet | l t soup Hl Hg Hnet];
    try (intros [= <-] H; now apply elem_of_nil in H).
  - destruct e; [intros [= <-] H; now apply elem_of_nil in H | discriminate].
  - destruct e; [intros [= <-] H; now apply elem_of_nil in H | discriminate].
  - intros [= <-]. simpl. unfold code_examples.
    destruct (String.eqb (lower l) "python").
    + intros (b & _ & H)%list_elem_of_omap. now apply python_example_shape in H.
    + intros H. now apply elem_of_nil in H.
Qed.

(** The page whose heading and block are padded with no-break spaces. *)
Lemma X2_example_records_witness :
  example_record [("title", "Lists"); ("code", "list(a)"); ("language", "python")].
Proof.
  apply (X2_example_records PyStr.ascii_lower
           (Fixture.net_ok Fixture.padded_page) initial
           (Fixture.code "python" "list" 3)
           (code_success "python" (Fixture.code "python" "list" 3)
              Fixture.padded_page)).
  - reflexivity.
  - left.
Defined.

(** ** The log of requests and the growth of the cache *)

Lemma search_documentation_log lower net query st :
  requests (snd (search_documentation lower net query st)) = requests st
  \/ exists url,
      requests (snd (search_documentation lower net query st))
      = requests st ++ [url].
Proof.
  destruct (search_documentation_outcome lower net query st); simpl; eauto.
Qed.

Lemma get_code_examples_log lower net query st :
  requests (snd (get_code_examples lower net query st)) = requests st
  \/ exists url,
      requests (snd (get_code_examples lower net query st)) = requests st ++ [url].
Proof.
  destruct (get_code_examples_outcome lower net query st); simpl; eauto.
Qed.

Lemma handle_log lower net req st :
  requests (snd (handle lower net req st)) = requests st
  \/ exists url, requests (snd (handle lower net req st)) = requests st ++ [url].
Proof.
  rewrite handle_state. destruct req;
    [apply search_documentation_log | apply get_code_examples_log].
Qed.

(** X3.  A handler sends at most one request per call and the log is
    never rewritten: after any run the log is the log before, followed by
    at most as many URLs as requests were handled. *)
Theorem X3_one_request_per_call lower net reqs st :
  exists urls,
    requests (snd (serve lower net reqs st)) = requests st ++ urls
    /\ (length urls <= length reqs)%nat.
Proof.
  revert st; induction reqs as [|req rest IH]; intros st.
  - exists []. simpl. now rewrite app_nil_r.
  - rewrite serve_state.
    destruct (IH (snd (handle lower net req st))) as (urls & -> & Hlen).
    destruct (handle_log lower net req st) as [-> | [url ->]].
    + exists urls. split; [reflexivity | simpl; lia].
    + exists (url :: urls). rewrite <- app_assoc. split; [reflexivity | simpl; lia].
Qed.



Lemma search_documentation_size lower net query st :
  (size (DOC_CACHE st) <= length (requests st))%nat ->
  (size (DOC_CACHE (snd (search_documentation lower net query st)))
   <= length (requests (snd (search_documentation lower net query st))))%nat.
Proof.
  intros H.
  destruct (search_documentation_outcome lower net query st)
    as [cached Hc | Hc Hg | base e Hc Hg Hn | base status body Hc Hg Hn Hs
       | base e Hc Hg Hn | base soup Hc Hg Hn];
    simpl; rewrite ?length_app; simpl; try lia.
  rewrite map_size_insert_None by exact Hc. lia.
Qed.

Lemma serve_size lower net reqs st :
  (size (DOC_CACHE st) <= length (requests st))%nat ->
  (size (DOC_CACHE (snd (serve lower net reqs st)))
   <= length (requests (snd (serve lower net reqs st))))%nat.
Proof.
  revert st; induction reqs as [|req rest IH]; intros st H; [exact H|].
  rewrite serve_state. apply IH. rewrite handle_state. destruct req as [q|q].
  - now apply search_documentation_size.
  - rewrite get_code_examples_cache.
    destruct (get_code_examples_log lower net q st) as [-> | [url ->]];
      rewrite ?length_app; simpl; lia.
Qed.

(** X5.  In every state the process can reach, the cache has at most as
    many entries as requests have been sent: each entry was obtained by a
    request of its own. *)
Theorem X5_entries_and_requests lower net st :
  reachable lower net st ->
  (size (DOC_CACHE st) <= length (requests st))%nat.
Proof.
  intros [reqs <-]. apply serve_size. simpl. rewrite map_size_empty. lia.
Qed.

Lemma X5_entries_and_requests_witness :
  (size (DOC_CACHE
           (snd (serve PyStr.ascii_lower (Fixture.net_ok Fixture.results_page)
                   [SearchDocs (Fixture.docs "python" "list" 5);
                    CodeExamples (Fixture.code "python" "list" 3);
                    SearchDocs (Fixture.docs "python" "list" 1)] initial)))
   <= 2)%nat.
Proof.
  apply (X5_entries_and_requests PyStr.ascii_lower
           (Fixture.net_ok Fixture.results_page)
           (snd (serve PyStr.ascii_lower (Fixture.net_ok Fixture.results_page)
                   [SearchDocs (Fixture.docs "python" "list" 5);
                    CodeExamples (Fixture.code "python" "list" 3);
                    SearchDocs (Fixture.docs "python" "list" 1)] initial))).
  now eexists.
Defined.

(** ** What a result echoes *)

(** X6.  A code-example result always carries the library and the function
    of its query.  In every state the process can reach, a documentation
    result carries the library and the term of its query whenever the
    library has no colon in it. *)
Theorem X6_results_echo lower net st :
  keeps_colons lower ->
  reachable lower net st ->
  (forall query r,
      has_colon (DocumentationQuery.library query) = false ->
      fst (search_documentation lower net query st) = Returns r ->
      DocumentationResult.library r = DocumentationQuery.library query
      /\ DocumentationResult.term r = DocumentationQuery.term query)
  /\ (forall query r,
      fst (get_code_examples lower net query st) = Returns r ->
      CodeExampleResult.library r = CodeExampleQuery.library query
      /\ CodeExampleResult.function r = CodeExampleQuery.function query).
Proof.
  intros Hlower Hr. split.
  - intros query r Hcolon.
    destruct (search_documentation_outcome lower net query st)
      as [cached Hc | Hc Hg | base e Hc Hg Hn | base status body Hc Hg Hn Hs
         | base e Hc Hg Hn | base soup Hc Hg Hn];
      try (intros [= <-]; split; reflexivity).
    + intros [= <-].
      destruct (reachable_inv _ _ _ Hr _ _ Hc) as (q0 & soup & base & Hk & Hg & ->).
      unfold cache_key in Hk. simpl.
      apply key_split_unique in Hk; eauto using registered_no_colon.
    + destruct e; [intros [= <-]; split; reflexivity | discriminate].
    + destruct e; [intros [= <-]; split; reflexivity | discriminate].
  - intros query r.
    destruct (get_code_examples_outcome lower net query st)
      as [Hl | l Hl Hg | l t e Hl Hg Hnet | l t status body Hl Hg Hnet Hs
         | l t e Hl Hg Hnet | l t soup Hl Hg Hnet];
      try (intros [= <-]; split; reflexivity);
      destruct e; (intros [= <-]; split; reflexivity) || discriminate.
Qed.

Lemma X6_results_echo_witness :
  DocumentationResult.library
    (doc_success PyStr.ascii_lower (Fixture.docs "python" "list" 5)
       Fixture.results_page)
  = DocumentationQuery.library (Fixture.docs "python" "list" 1).
Proof.
  destruct (X6_results_echo PyStr.ascii_lower
              (Fixture.net_ok Fixture.results_page)
              (snd (handle PyStr.ascii_lower (Fixture.net_ok Fixture.results_page)
                      (SearchDocs (Fixture.docs "python" "list" 5)) initial))
              ascii_lower_keeps_colons
              (reachable_handle _ _ _ _ (reachable_initial _ _)))
    as [H _].
  now destruct (H (Fixture.docs "python" "list" 1)
                  (doc_success PyStr.ascii_lower (Fixture.docs "python" "list" 5)
                     Fixture.results_page) eq_refl eq_refl) as [-> _].
Defined.

(** ** What [get_code_examples] depends on *)

Lemma get_code_examples_try_cache_free lower net query st st' :
  requests st = requests st' ->
  fst (get_code_examples_try lower net query st)
  = fst (get_code_examples_try lower net query st')
  /\ requests (snd (get_code_examples_try lower net query st))
     = requests (snd (get_code_examples_try lower net query st')).
Proof.
  intros H. unfold get_code_examples_try, session_get. rewrite H.
  destruct (CodeExampleQuery.language query) as [l|]; [|now split].
  destruct (dict_get CODE_EXAMPLE_SOURCES (lower l)) as [t|]; [|now split].
  destruct (net (length (requests st'))
              (PyStr.format t (CodeExampleQuery.function query)))
    as [e | status [e | soup]]; try (now split);
    destruct (negb (status =? 200)); now split.
Qed.

(** X7.  There is no cache for code examples: [get_code_examples] leaves
    [DOC_CACHE] as it is, how it ends does not depend on what the cache
    holds, and a query with a registered language sends one request at every
    call, also when the same query has just been answered. *)
Theorem X7_code_examples_uncached lower net query st :
  DOC_CACHE (snd (get_code_examples lower net query st)) = DOC_CACHE st
  /\ (forall st',
        requests st' = requests st ->
        fst (get_code_examples lower net query st')
        = fst (get_code_examples lower net query st))
  /\ (forall l template,
        CodeExampleQuery.language query = Some l ->
        dict_get CODE_EXAMPLE_SOURCES (lower l) = Some template ->
        requests (snd (get_code_examples lower net query
                         (snd (get_code_examples lower net query st))))
        = requests st ++ [code_search_url template query;
                          code_search_url template query]).
Proof.
  split; [apply get_code_examples_cache|]. split.
  - intros st' H.
    destruct (get_code_examples_try_cache_free lower net query st' st H) as [Hr _].
    unfold get_code_examples.
    destruct (get_code_examples_try lower net query st') as [b' s'],
             (get_code_examples_try lower net query st) as [b s].
    simpl in *. now rewrite Hr.
  - intros l template Hl Hg.
    assert (Hone : forall s, requests (snd (get_code_examples lower net query s))
                             = requests s ++ [code_search_url template query]).
    { intros s.
      destruct (get_code_examples_outcome lower net query s)
        as [Hl' | l' Hl' Hg' | l' t e Hl' Hg' Hnet | l' t status body Hl' Hg' Hnet Hs
           | l' t e Hl' Hg' Hnet | l' t soup Hl' Hg' Hnet];
        try congruence;
        assert (l' = l) as -> by congruence;
        assert (t = template) as -> by congruence; reflexivity. }
    now rewrite !Hone, <- app_assoc.
Qed.

Lemma X7_code_examples_uncached_witness :
  requests (snd (get_code_examples PyStr.ascii_lower
                   (Fixture.net_ok Fixture.examples_page)
                   (Fixture.code "python" "list" 3)
                   (snd (get_code_examples PyStr.ascii_lower
                           (Fixture.net_ok Fixture.examples_page)
                           (Fixture.code "python" "list" 3) initial))))
  = [Fixture.python_search_list; Fixture.python_search_list].
Proof.
  destruct (X7_code_examples_uncached PyStr.ascii_lower
              (Fixture.net_ok Fixture.examples_page)
              (Fixture.code "python" "list" 3) initial) as (_ & _ & H).
  apply (H "python" Fixture.python_template); reflexivity.
Defined.

(** X8.  Of a code-example query only the function, [max_examples] and the
    lowercased language count: two queries that agree on these end alike,
    with the same examples and the same error or the same fault, and send
    the same request, whatever their libraries and the case of their
    languages. *)
Theorem X8_code_examples_inputs lower net st query1 query2 l1 l2 :
  CodeExampleQuery.language query1 = Some l1 ->
  CodeExampleQuery.language query2 = Some l2 ->
  lower l1 = lower l2 ->
  CodeExampleQuery.function query1 = CodeExampleQuery.function query2 ->
  CodeExampleQuery.max_examples query1 = CodeExampleQuery.max_examples query2 ->
  returned CodeExampleResult.examples (fst (get_code_examples lower net query1 st))
  = returned CodeExampleResult.examples (fst (get_code_examples lower net query2 st))
  /\ returned CodeExampleResult.error (fst (get_code_examples lower net query1 st))
     = returned CodeExampleResult.error (fst (get_code_examples lower net query2 st))
  /\ snd (get_code_examples lower net query1 st)
     = snd (get_code_examples lower net query2 st).
Proof.
  intros H1 H2 Hlow Hf Hm.
  unfold get_code_examples, get_code_examples_try, session_get.
  rewrite H1, H2, Hlow, Hf, Hm.
  destruct (dict_get CODE_EXAMPLE_SOURCES (lower l2)) as [t|]; [|now auto].
  destruct (net (length (requests st))
              (PyStr.format t (CodeExampleQuery.function query2)))
    as [[e|e] | status [[e|e] | soup]]; try (now auto);
    destruct (negb (status =? 200)); now auto.
Qed.

Lemma X8_code_examples_inputs_witness :
  returned CodeExampleResult.examples
    (fst (get_code_examples PyStr.ascii_lower
            (Fixture.net_ok Fixture.examples_page)
            {| CodeExampleQuery.library := "numpy";
               CodeExampleQuery.function := "list";
               CodeExampleQuery.language := Some "PYTHON";
               CodeExampleQuery.max_examples := Some 3 |} initial))
  = Returns
      [[("title", "Lists"); ("code", "list(a)"); ("language", "python")];
       [("title", "Lists"); ("code", "list(c)"); ("language", "python")]].
Proof.
  rewrite (proj1 (X8_code_examples_inputs PyStr.ascii_lower
                    (Fixture.net_ok Fixture.examples_page) initial
                    {| CodeExampleQuery.library := "numpy";
                       CodeExampleQuery.function := "list";
                       CodeExampleQuery.language := Some "PYTHON";
                       CodeExampleQuery.max_examples := Some 3 |}
                    (Fixture.code "python" "list" 3) "PYTHON" "python"
                    eq_refl eq_refl eq_refl eq_refl eq_refl)).
  reflexivity.
Defined.

(** ** The case of the library *)

Lemma doc_search_url_lower lower (base_url : string)
  (query1 query2 : DocumentationQuery.t) :
  lower (DocumentationQuery.library query1)
    = lower (DocumentationQuery.library query2) ->
  DocumentationQuery.term query1 = DocumentationQuery.term query2 ->
  doc_search_url lower base_url query1 = doc_search_url lower base_url query2.
Proof. intros Hl Ht. unfold doc_search_url. now rewrite Hl, Ht. Qed.

Lemma doc_results_lower lower (library1 library2 : string)
  (max_results : option Z) (soup : Soup.BeautifulSoup) :
  lower library1 = lower library2 ->
  doc_results lower library1 max_results soup
  = doc_results lower library2 max_results soup.
Proof. intros Hl. unfold doc_results. now rewrite Hl. Qed.

(** X9.  When neither is answered from the cache, two documentation
    queries with the same term and [max_results] whose libraries are equal
    up to the case of letters end alike: with the same records or the same
    fault, both with an error or both without, and send the same request. *)
Theorem X9_library_case lower net st query1 query2 :
  lower (DocumentationQuery.library query1)
    = lower (DocumentationQuery.library query2) ->
  DocumentationQuery.term query1 = DocumentationQuery.term query2 ->
  DocumentationQuery.max_results query1 = DocumentationQuery.max_results query2 ->
  DOC_CACHE st !! cache_key query1 = None ->
  DOC_CACHE st !! cache_key query2 = None ->
  returned DocumentationResult.results
    (fst (search_documentation lower net query1 st))
  = returned DocumentationResult.results
      (fst (search_documentation lower net query2 st))
  /\ (forall r1 r2,
        fst (search_documentation lower net query1 st) = Returns r1 ->
        fst (search_documentation lower net query2 st) = Returns r2 ->
        DocumentationResult.error r1 = None
        <-> DocumentationResult.error r2 = None)
  /\ requests (snd (search_documentation lower net query1 st))
     = requests (snd (search_documentation lower net query2 st)).
Proof.
  intros Hl Ht Hm Hc1 Hc2.
  destruct (search_documentation_outcome lower net query1 st)
    as [cached Hc | Hc Hg | base e Hc Hg Hn | base status body Hc Hg Hn Hs
       | base e Hc Hg Hn | base soup Hc Hg Hn]; [congruence|..];
    rewrite Hl in Hg; try rewrite (doc_search_url_lower lower base _ _ Hl Ht) in Hn.
  - rewrite (doc_outcome_run _ _ _ _ _ _
               (doc_unsupported lower net query2 st Hc2 Hg)).
    simpl. repeat split; intros; simplify_eq; discriminate.
  - rewrite (doc_outcome_run _ _ _ _ _ _
               (doc_raised lower net query2 st base e Hc2 Hg Hn)).
    simpl. rewrite (doc_search_url_lower lower base _ _ Hl Ht).
    destruct e; simpl; repeat split; intros; simplify_eq; discriminate.
  - rewrite (doc_outcome_run _ _ _ _ _ _
               (doc_failed lower net query2 st base status body Hc2 Hg Hn Hs)).
    simpl. rewrite (doc_search_url_lower lower base _ _ Hl Ht).
    repeat split; intros; simplify_eq; discriminate.
  - rewrite (doc_outcome_run _ _ _ _ _ _
               (doc_unreadable lower net query2 st base e Hc2 Hg Hn)).
    simpl. rewrite (doc_search_url_lower lower base _ _ Hl Ht).
    destruct e; simpl; repeat split; intros; simplify_eq; discriminate.
  - rewrite (doc_outcome_run _ _ _ _ _ _
               (doc_extracted lower net query2 st base soup Hc2 Hg Hn)).
    simpl. rewrite (doc_search_url_lower lower base _ _ Hl Ht), Hm.
    rewrite (doc_results_lower lower _ _ _ _ Hl).
    repeat split; intros; simplify_eq; reflexivity.
Qed.

Lemma X9_library_case_witness :
  returned DocumentationResult.results
    (fst (search_documentation PyStr.ascii_lower
            (Fixture.net_ok Fixture.results_page)
            (Fixture.docs "PYTHON" "list" 5) initial))
  = Returns
      (DocumentationResult.results
         (doc_success PyStr.ascii_lower (Fixture.docs "python" "list" 5)
            Fixture.results_page)).
Proof.
  rewrite (proj1 (X9_library_case PyStr.ascii_lower
                    (Fixture.net_ok Fixture.results_page) initial
                    (Fixture.docs "PYTHON" "list" 5)
                    (Fixture.docs "python" "list" 5)
                    eq_refl eq_refl eq_refl eq_refl eq_refl)).
  reflexivity.
Defined.

(** ** The libraries [get_available_documentation] lists *)

Lemma dict_get_keys (d : list (string * string)) (key : string) :
  dict_get d key = None <-> key ∉ keys d.
Proof.
  induction d as [|[k v] d IH].
  - rewrite dict_get_nil. split; [intros _ H; now apply elem_of_nil in H | reflexivity].
  - rewrite dict_get_cons. unfold keys. simpl. fold (keys d).
    rewrite not_elem_of_cons, <- IH.
    destruct (String.eqb_spec k key) as [<-|Hne].
    + split; [discriminate | now intros [H _]].
    + split; [intros H; split; [congruence | exact H] | now intros [_ H]].
Qed.

(** X10.  [get_available_documentation] returns the names of the registry,
    each once, and they are the libraries [search_documentation] accepts: a
    query that is not answered from the cache sends a request when its
    library, as [str.lower] gives it, is listed, and gets the
    unsupported-library error, with no request, when it is not. *)
Theorem X10_available_libraries lower :
  exists libs,
    get_available_documentation = [("available_libraries", libs)]
    /\ NoDup libs
    /\ forall net st query,
        DOC_CACHE st !! cache_key query = None ->
        (lower (DocumentationQuery.library query) ∈ libs ->
         exists url,
           requests (snd (search_documentation lower net query st))
           = requests st ++ [url])
        /\ (lower (DocumentationQuery.library query) ∉ libs ->
            search_documentation lower net query st
            = (Returns
                 {| DocumentationResult.library := DocumentationQuery.library query;
                    DocumentationResult.term := DocumentationQuery.term query;
                    DocumentationResult.results := [];
                    DocumentationResult.error :=
                      Some ("Documentation for "
                              +:+ DocumentationQuery.library query
                              +:+ " is not available") |}, st)).
Proof.
  exists (keys DOC_SOURCES). split; [reflexivity|]. split.
  - apply (bool_decide_unpack _). vm_compute. reflexivity.
  - intros net st query Hc. split.
    + intros Hin.
      destruct (dict_get DOC_SOURCES (lower (DocumentationQuery.library query)))
        as [base|] eqn:Hg.
      * exists (doc_search_url lower base query).
        now apply search_documentation_requests.
      * now apply dict_get_keys in Hg.
    + intros Hout. apply dict_get_keys in Hout.
      now rewrite (doc_outcome_run _ _ _ _ _ _
                     (doc_unsupported lower net query st Hc Hout)).
Qed.

(** ** The URLs the handlers request *)

(** X11.  For the languages [python] and [javascript] the code-example
    handler requests the very URL the documentation handler requests for the
    library of that name and the same word: the search page of the site. *)
Theorem X11_same_search_url lower doc_query code_query l base_url template :
  CodeExampleQuery.language code_query = Some l ->
  lower (DocumentationQuery.library doc_query) = lower l ->
  dict_get DOC_SOURCES (lower l) = Some base_url ->
  dict_get CODE_EXAMPLE_SOURCES (lower l) = Some template ->
  lower l <> "nodejs" ->
  DocumentationQuery.term doc_query = CodeExampleQuery.function code_query ->
  doc_search_url lower base_url doc_query = code_search_url template code_query.
Proof.
  intros _ Hlib _ Hg Hnode Hterm.
  unfold doc_search_url, code_search_url. rewrite Hlib, Hterm.
  destruct (CODE_EXAMPLE_SOURCES_get _ _ Hg) as [E | [E | E]];
    rewrite E in *; [| |now elim Hnode];
    injection Hg as <-; simpl; now rewrite ?append_empty_r.
Qed.

Lemma X11_same_search_url_witness :
  doc_search_url PyStr.ascii_lower
    "https://developer.mozilla.org/en-US/docs/Web/JavaScript/"
    (Fixture.docs "JavaScript" "map" 5)
  = code_search_url "https://developer.mozilla.org/en-US/search?q={}"
      (Fixture.code "javascript" "map" 3).
Proof.
  apply (X11_same_search_url PyStr.ascii_lower (Fixture.docs "JavaScript" "map" 5)
           (Fixture.code "javascript" "map" 3) "javascript");
    try reflexivity; discriminate.
Defined.

(** X12.  The word searched for goes into the URL as it is, between a
    prefix and a suffix that the library (the language) fixes: nothing is
    escaped, whatever characters the word has. *)
Theorem X12_word_verbatim lower :
  (forall library base_url,
      exists p s, forall term max_results,
        doc_search_url lower base_url
          {| DocumentationQuery.library := library;
             DocumentationQuery.term := term;
             DocumentationQuery.max_results := max_results |}
        = p +:+ term +:+ s)
  /\ (forall language template,
      dict_get CODE_EXAMPLE_SOURCES language = Some template ->
      exists p s, forall function, PyStr.format template function = p +:+ function +:+ s).
Proof.
  split.
  - intros library base. unfold doc_search_url. simpl.
    destruct (String.eqb (lower library) "python");
      [|destruct (String.eqb (lower library) "javascript")].
    + now exists "https://docs.python.org/3/search.html?q=",
                 "&check_keywords=yes&area=default".
    + exists "https://developer.mozilla.org/en-US/search?q=", "".
      intros term _. now rewrite append_empty_r.
    + exists (base +:+ "search.html?q="), "". intros term _.
      rewrite append_empty_r. clear. induction base as [|c b IH]; simpl; congruence.
  - intros language template Hg. unfold CODE_EXAMPLE_SOURCES in Hg.
    dict_cases Hg ltac:(injection Hg as <-).
    + now exists "https://docs.python.org/3/search.html?q=",
                 "&check_keywords=yes&area=default".
    + now exists "https://developer.mozilla.org/en-US/search?q=", "".
    + now exists "https://nodejs.org/api/all.html#all_", "".
Qed.

Lemma X12_word_verbatim_witness :
  exists p s, forall function,
    PyStr.format "https://nodejs.org/api/all.html#all_{}" function
    = p +:+ function +:+ s.
Proof.
  destruct (X12_word_verbatim PyStr.ascii_lower) as [_ H].
  apply (H "nodejs"). reflexivity.
Defined.

(** ** Failures are not remembered *)

(** X13.  A documentation query that missed the cache and did not come
    back with a result free of error has left the cache as it was, so the
    same query asked again sends its request again. *)
Theorem X13_failures_retried lower net net' query st base_url :
  DOC_CACHE st !! cache_key query = None ->
  dict_get DOC_SOURCES (lower (DocumentationQuery.library query))
    = Some base_url ->
  (forall r,
      fst (search_documentation lower net query st) = Returns r ->
      DocumentationResult.error r <> None) ->
  let st1 := snd (search_documentation lower net query st) in
  DOC_CACHE st1 = DOC_CACHE st
  /\ requests st1 = requests st ++ [doc_search_url lower base_url query]
  /\ requests (snd (search_documentation lower net' query st1))
     = requests st ++ [doc_search_url lower base_url query;
                       doc_search_url lower base_url query].
Proof.
  intros Hc Hg He st1.
  assert (Hcache : DOC_CACHE st1 = DOC_CACHE st).
  { subst st1. revert He.
    destruct (search_documentation_outcome lower net query st);
      try reflexivity. intros He. now elim (He _ eq_refl). }
  assert (Hreq : requests st1 = requests st ++ [doc_search_url lower base_url query])
    by now apply search_documentation_requests.
  split; [exact Hcache|]. split; [exact Hreq|].
  rewrite (search_documentation_requests lower net' query st1 base_url);
    [|now rewrite Hcache | exact Hg].
  now rewrite Hreq, <- app_assoc.
Qed.

Lemma X13_failures_retried_witness :
  requests
    (snd (search_documentation PyStr.ascii_lower
            (Fixture.net_ok Fixture.results_page)
            (Fixture.docs "python" "list" 5)
            (snd (search_documentation PyStr.ascii_lower (Fixture.net_status 503)
                    (Fixture.docs "python" "list" 5) initial))))
  = [Fixture.python_search_list; Fixture.python_search_list].
Proof.
  assert (He : forall r,
             fst (search_documentation PyStr.ascii_lower (Fixture.net_status 503)
                    (Fixture.docs "python" "list" 5) initial) = Returns r ->
             DocumentationResult.error r <> None)
    by (intros r [= <-]; discriminate).
  destruct (X13_failures_retried PyStr.ascii_lower (Fixture.net_status 503)
              (Fixture.net_ok Fixture.results_page)
              (Fixture.docs "python" "list" 5) initial
              "https://docs.python.org/3/" eq_refl eq_refl He) as (_ & _ & H).
  exact H.
Defined.

(** ** Bounds at the edges *)




Lemma python_record_anchor (l : list Soup.Element) :
  length (omap python_record l) = length (List.filter has_anchor l).
Proof.
  induction l as [|x l IH]; [reflexivity|]. simpl.
  change (list_omap _ _ python_record l) with (omap python_record l).
  unfold python_record at 1, has_anchor at 1.
  destruct (Soup.select_one Soup.sel_a x); simpl; now rewrite IH.
Qed.

Lemma javascript_record_anchor (l : list Soup.Element) :
  length (omap javascript_record l) = length (List.filter has_anchor l).
Proof.
  induction l as [|x l IH]; [reflexivity|]. simpl.
  change (list_omap _ _ javascript_record l) with (omap javascript_record l).
  unfold javascript_record at 1, has_anchor at 1.
  destruct (Soup.select_one Soup.sel_a x); simpl; now rewrite IH.
Qed.

(** X15.  A documentation query with [max_results = n >= 0] that is
    answered from the network gets one record for each of the first [n]
    result items of the page that has an anchor below it: an item without an
    anchor gives no record and still counts among the [n]. *)
Theorem X15_items_without_anchor lower net query st base_url soup n :
  DOC_CACHE st !! cache_key query = None ->
  dict_get DOC_SOURCES (lower (DocumentationQuery.library query))
    = Some base_url ->
  net (length (requests st)) (doc_search_url lower base_url query)
    = Response 200 (inr soup) ->
  DocumentationQuery.max_results query = Some n ->
  0 <= n ->
  exists r,
    fst (search_documentation lower net query st) = Returns r
    /\ length (DocumentationResult.results r)
       = length (List.filter has_anchor
                   (take (Z.to_nat n)
                      (doc_items lower (DocumentationQuery.library query) soup))).
Proof.
  intros Hc Hg Hn Hmax Hpos.
  rewrite (doc_outcome_run _ _ _ _ _ _
             (doc_extracted lower net query st base_url soup Hc Hg Hn)).
  eexists. split; [reflexivity|].
  simpl. rewrite Hmax. unfold doc_results, doc_items.
  destruct (String.eqb (lower (DocumentationQuery.library query)) "python");
    [|destruct (String.eqb (lower (DocumentationQuery.library query))
                 "javascript")].
  - now rewrite slice_to_nonneg, python_record_anchor.
  - now rewrite slice_to_nonneg, javascript_record_anchor.
  - now rewrite take_nil.
Qed.

(** The page whose first result item has no anchor: with [max_results = 1]
    the second item is not looked at and no record is returned. *)
Lemma X15_items_without_anchor_witness :
  exists r,
    fst (search_documentation PyStr.ascii_lower
           (Fixture.net_ok Fixture.ragged_page)
           (Fixture.docs "python" "list" 1) initial) = Returns r
    /\ length (DocumentationResult.results r) = 0%nat.
Proof.
  apply (X15_items_without_anchor PyStr.ascii_lower
           (Fixture.net_ok Fixture.ragged_page)
           (Fixture.docs "python" "list" 1) initial
           "https://docs.python.org/3/" Fixture.ragged_page 1
           eq_refl eq_refl eq_refl eq_refl).
  lia.
Defined.

Lemma mentions_empty (code_block : Soup.Element) : mentions "" code_block = true.
Proof. apply contains_spec. now exists "", (Soup.text (Soup.node code_block)). Qed.

Lemma filter_all {A} (f : A -> bool) (l : list A) :
  (forall x, f x = true) -> List.filter f l = l.
Proof.
  intros H. induction l as [|x l IH]; [reflexivity|]. simpl. now rewrite H, IH.
Qed.

(** X16.  The empty function name is in every text: a Python code-example
    query with [function = ""] and [max_examples = n >= 0] that is answered
    with status 200 gets the first [n] [pre] blocks of the page, every one
    of them. *)
Theorem X16_empty_function lower net query st l template soup n :
  CodeExampleQuery.language query = Some l ->
  lower l = "python" ->
  dict_get CODE_EXAMPLE_SOURCES "python" = Some template ->
  net (length (requests st)) (code_search_url template query)
    = Response 200 (inr soup) ->
  CodeExampleQuery.function query = "" ->
  CodeExampleQuery.max_examples query = Some n ->
  0 <= n ->
  fst (get_code_examples lower net query st)
  = Returns
      (code_result query
         (map example_of (take (Z.to_nat n) (pre_blocks soup))) None).
Proof.
  intros Hl Hpy Hg Hn Hf Hmax Hpos.
  rewrite (python_examples_run lower net query st l template soup Hl Hpy Hg Hn).
  rewrite Hf, Hmax, slice_to_nonneg by assumption.
  rewrite (filter_all _ _ mentions_empty). unfold code_result. now rewrite Hf.
Qed.

Lemma X16_empty_function_witness :
  returned (fun r => length (CodeExampleResult.examples r))
    (fst (get_code_examples PyStr.ascii_lower
            (Fixture.net_ok Fixture.examples_page)
            (Fixture.code "python" "" 5) initial))
  = Returns 3%nat.
Proof.
  rewrite (X16_empty_function PyStr.ascii_lower
             (Fixture.net_ok Fixture.examples_page)
             (Fixture.code "python" "" 5) initial "python"
             Fixture.python_template Fixture.examples_page 5
             eq_refl eq_refl eq_refl eq_refl eq_refl eq_refl); [reflexivity | lia].
Defined.

(** X17.  [max_examples] need not be a count.  With [max_examples] null a
    Python code-example query answered with status 200 gets an example for
    every [pre] block that mentions the function; with [max_examples = n < 0]
    the last [-n] blocks of the page are left out instead of the blocks after
    the first [n], and the others that mention the function are returned. *)
Theorem X17_null_and_negative_bound lower net query st l template soup :
  CodeExampleQuery.language query = Some l ->
  lower l = "python" ->
  dict_get CODE_EXAMPLE_SOURCES "python" = Some template ->
  net (length (requests st)) (code_search_url template query)
    = Response 200 (inr soup) ->
  (CodeExampleQuery.max_examples query = None ->
   fst (get_code_examples lower net query st)
   = Returns
       (code_result query
          (map example_of
             (List.filter (mentions (CodeExampleQuery.function query))
                (pre_blocks soup))) None))
  /\ (forall n,
      CodeExampleQuery.max_examples query = Some n -> n < 0 ->
      fst (get_code_examples lower net query st)
      = Returns
          (code_result query
             (map example_of
                (List.filter (mentions (CodeExampleQuery.function query))
                   (take (length (pre_blocks soup) - Z.to_nat (- n))
                      (pre_blocks soup)))) None)).
Proof.
  intros Hl Hpy Hg Hn.
  rewrite (python_examples_run lower net query st l template soup Hl Hpy Hg Hn).
  split.
  - now intros ->.
  - intros n -> Hneg. unfold PyStr.slice_to.
    destruct (Z.leb_spec 0 n); [lia | reflexivity].
Qed.

(** The page with the blocks [list(a)], [dict(b)], [list(c)]: with
    [max_examples = -1] the last block is left out. *)
Lemma X17_null_and_negative_bound_witness :
  returned CodeExampleResult.examples
    (fst (get_code_examples PyStr.ascii_lower
            (Fixture.net_ok Fixture.examples_page)
            (Fixture.code "python" "list" (-1)) initial))
  = Returns [[("title", "Lists"); ("code", "list(a)"); ("language", "python")]].
Proof.
  destruct (X17_null_and_negative_bound PyStr.ascii_lower
              (Fixture.net_ok Fixture.examples_page)
              (Fixture.code "python" "list" (-1)) initial "python"
              Fixture.python_template Fixture.examples_page
              eq_refl eq_refl eq_refl eq_refl) as [_ H].
  rewrite (H (-1)); [reflexivity | reflexivity | lia].
Defined.
